(** * BaseRepository over a Supabase client: model and properties

    The repository class of [src/base-repository.ts] is written against the
    query builder of the client it is handed.  The model keeps that shape:
    the client is an interface ([Client.SupabaseClient]), the repository
    methods are programs in a small promise monad that threads the state
    behind the client and records every request and every answer, and the
    mock client of the test suite ([tests/mock-supabase-client.ts]) is one
    instance of the interface.

    JavaScript numbers that count rows or pages are integers here ([Z]);
    the quotient of [Math.ceil(totalCount / pageSize)] is an exact rational
    or one of the three special values, which is what the double
    arithmetic yields on safe integers.  A [page] or [pageSize] that is a
    fraction, [NaN], an infinity or the negative zero has no counterpart
    in the model, and beyond [2^53] the source's sums and products round
    where the integers do not: every statement about [findPaginated] is
    one about integer pages and page sizes, and those that name the exact
    bounds of the range sent carry [exact_offsets] as a hypothesis.

    A filter function is a function from builders to builders: the model
    covers the filter functions that build on the query they are given and
    do nothing else.  The statements about the mock client that depend on
    a filter say which calls it is made of. *)

From Stdlib Require Import ZArith QArith Qround Ascii String List Lia.
From stdpp Require Import base option list gmap strings pretty.

Close Scope Q_scope.
Open Scope string_scope.
Open Scope list_scope.
Open Scope Z_scope.

(** ** Values *)

(** The values a column holds.  [SUndefined] is what reading an absent
    property gives. *)
Inductive Scalar :=
| SUndefined
| SNull
| SBool (b : bool)
| SNum (n : Z)
| SStr (s : string).

#[global] Instance Scalar_eq_dec : EqDecision Scalar.
Proof. solve_decision. Defined.

(** A row is an object with string keys: [Record<string, any>]. *)
Abbreviation Row := (gmap string Scalar).

(** [item[column]] *)
Definition prop (item : Row) (column : string) : Scalar :=
  default SUndefined (item !! column).

(** [a === b] on column values. *)
Definition strict_eq (a b : Scalar) : bool := bool_decide (a = b).

(** Truthiness of a column value, as in [item.id ? ... : ...]. *)
Definition truthy (v : Scalar) : bool :=
  match v with
  | SUndefined | SNull => false
  | SBool b => b
  | SNum n => negb (n =? 0)
  | SStr s => negb (String.eqb s "")
  end.

(** The [data] of a response: [null], one row, or an array of rows. *)
Inductive Data :=
| DNull
| DRow (r : Row)
| DRows (rs : list Row).

(** The error object of a response. *)
Record ClientError := { message : string; code : option string }.

(** [{ data, error, count }]: what awaiting a query resolves to.  A [None]
    stands for [null] or a missing field. *)
Record Response := {
  data : Data;
  error : option ClientError;
  count : option Z
}.

(** [select(columns, { count, head })] *)
Record SelectOptions := { opt_count : option string; opt_head : bool }.

(** ** Numbers of the pagination arithmetic *)

Inductive number :=
| Num (q : Q)
| Infinity
| NegInfinity
| NaN.

(** [a / b] on integers. *)
Definition div (a b : Z) : number :=
  if b =? 0 then
    if a =? 0 then NaN else if 0 <? a then Infinity else NegInfinity
  else Num (inject_Z a / inject_Z b)%Q.

(** [Math.ceil] *)
Definition Math_ceil (x : number) : number :=
  match x with
  | Num q => Num (inject_Z (Qceiling q))
  | _ => x
  end.

(** [a ?? b] *)
Definition nullish {A} (a : option A) (b : A) : A :=
  match a with Some x => x | None => b end.

Infix "??" := nullish (at level 45, left associativity).

(** [Array.prototype.join]: the elements, with the separator before every
    element but the first. *)
Fixpoint join_from (sep : string) (acc : string) (l : list string) : string :=
  match l with
  | [] => acc
  | x :: rest => join_from sep (acc +:+ sep +:+ x) rest
  end.

Definition join (l : list string) (sep : string) : string :=
  match l with
  | [] => ""
  | x :: rest => join_from sep x rest
  end.

(** ** The client interface *)

Inductive Request (B : Type) :=
| Await (q : B)
| Single (q : B)
| InsertSelectSingle (table : string) (values : Row)
| InsertSelect (table : string) (values : list Row)
| UpdateEqSelectSingle (table : string) (values : Row) (column : string) (value : Scalar)
| DeleteEq (table : string) (column : string) (value : Scalar)
| DeleteIn (table : string) (column : string) (values : list Scalar)
| UpsertSelectSingle (table : string) (values : Row) (onConflict : string).

Arguments Await {B} q.
Arguments Single {B} q.
Arguments InsertSelectSingle {B} table values.
Arguments InsertSelect {B} table values.
Arguments UpdateEqSelectSingle {B} table values column value.
Arguments DeleteEq {B} table column value.
Arguments DeleteIn {B} table column values.
Arguments UpsertSelectSingle {B} table values onConflict.

Module Client.

(** What the repository uses of [SupabaseClient]: the select builder
    [from(table).select(columns, options)] with its [eq], [order] and
    [range] steps, and the calls that are awaited.  [Server] is whatever
    the client talks to; [answer] is one round trip. *)
Class SupabaseClient := {
  Builder : Type;
  Server : Type;
  select : string -> option string -> option SelectOptions -> Builder;
  eq : string -> Scalar -> Builder -> Builder;
  order : string -> bool -> Builder -> Builder;
  range : Z -> Z -> Builder -> Builder;
  answer : Request Builder -> Server -> Response * Server
}.

End Client.

Abbreviation SupabaseClient := Client.SupabaseClient.
Abbreviation Builder := Client.Builder.
Abbreviation Server := Client.Server.

(** ** Promises *)

Inductive Event (B : Type) :=
| Issued (r : Request B)
| Settled (r : Response).

Arguments Issued {B} r.
Arguments Settled {B} r.

Inductive Outcome (A : Type) :=
| Return (a : A)
| Throw (e : ClientError).

Arguments Return {A} a.
Arguments Throw {A} e.

Section Promise.

Context `{C : SupabaseClient}.

(** The state behind the client and everything that went over the wire so
    far, oldest first. *)
Record World := { server : Server; trace : list (Event Builder) }.

Definition Promise (A : Type) : Type := World -> Outcome A * World.

Definition ret {A} (a : A) : Promise A := fun w => (Return a, w).

Definition throw {A} (e : ClientError) : Promise A := fun w => (Throw e, w).

Definition bind {A B} (m : Promise A) (k : A -> Promise B) : Promise B :=
  fun w =>
    match m w with
    | (Return a, w') => k a w'
    | (Throw e, w') => (Throw e, w')
    end.

(** [await request]: the request goes out and the function is suspended
    until the answer is in. *)
Definition await (r : Request Builder) : Promise Response :=
  fun w =>
    let (resp, s) := Client.answer r (server w) in
    (Return resp, {| server := s; trace := trace w ++ [Issued r; Settled resp] |}).

End Promise.

Notation "'let*' x ':=' m 'in' k" := (bind m (fun x => k))
  (at level 10, x name, m at level 100, k at level 200).

(** ** Options and results ([src/types.ts]) *)

Record OrderBy := { column : string; ascending : option bool }.

(** [OrderBy | OrderBy[]] *)
Inductive OrderByArg :=
| OneOrder (o : OrderBy)
| OrderArray (l : list OrderBy).

(** [Array.isArray(orderBy) ? orderBy : [orderBy]] *)
Definition orderByArray (orderBy : OrderByArg) : list OrderBy :=
  match orderBy with
  | OrderArray l => l
  | OneOrder o => [o]
  end.

Module Pagination.
Record t := {
  page : Z;
  pageSize : Z;
  totalCount : Z;
  totalPages : number
}.
End Pagination.

Record PaginatedResult := { items : Data; pagination : Pagination.t }.

(** ** The repository ([src/base-repository.ts]) *)

Module BaseRepository.
Section Methods.

Context `{C : SupabaseClient}.

(** [(query: any) => any]: what the function makes of the query it is
    given.  A function that also writes to the client on its way has no
    counterpart here. *)
Definition FilterFunction : Type := Builder -> Builder.

(** [filter] and [orderBy] of the options; both may be left out. *)
Record FindOptions := {
  opt_filter : option FilterFunction;
  opt_orderBy : option OrderByArg
}.

(** [FindOptions & { page, pageSize }], with an integer [page] and an
    integer [pageSize]. *)
Record FindPaginatedOptions := {
  page : Z;
  pageSize : Z;
  pg_filter : option FilterFunction;
  pg_orderBy : option OrderByArg
}.

(** The constructor's [tableName]; the client is [C]. *)
Variable tableName : string.

(** [if (error) throw error; return value] *)
Definition settle {A} (r : Response) (value : A) : Promise A :=
  match error r with
  | Some e => throw e
  | None => ret value
  end.

Definition get (id : Scalar) : Promise Data :=
  let* r := await (Single (Client.eq "id" id (Client.select tableName None None))) in
  settle r (data r).

(** [if (filter) query = filter(query)] *)
Definition applyFilter (filter : option FilterFunction) (query : Builder) : Builder :=
  match filter with
  | Some f => f query
  | None => query
  end.

(** The loop [for (const order of orderBy) query = query.order(...)]. *)
Definition orderAll (orders : list OrderBy) (query : Builder) : Builder :=
  fold_left
    (fun q o => Client.order (column o) (ascending o ?? true) q)
    orders query.

Definition applyOrderBy (query : Builder) (orderBy : option OrderByArg) : Builder :=
  match orderBy with
  | None => query
  | Some ob => orderAll (orderByArray ob) query
  end.

Definition find (options : FindOptions) : Promise Data :=
  let query := Client.select tableName None None in
  let query := applyFilter (opt_filter options) query in
  let query :=
    match opt_orderBy options with
    | Some ob => orderAll (orderByArray ob) query
    | None => query
    end in
  let* r := await (Await query) in
  settle r (data r).

Definition head_count : option SelectOptions :=
  Some {| opt_count := Some "exact"; opt_head := true |}.

Definition getTotalCount (filter : option FilterFunction) : Promise Z :=
  let countQuery := Client.select tableName (Some "*") head_count in
  let countQuery := applyFilter filter countQuery in
  let* r := await (Await countQuery) in
  settle r (count r ?? 0).

Definition getPaginatedData (offset pageSize : Z)
    (filter : option FilterFunction) (orderBy : option OrderByArg) : Promise Data :=
  let dataQuery :=
    Client.range offset (offset + pageSize - 1) (Client.select tableName None None) in
  let dataQuery := applyFilter filter dataQuery in
  let dataQuery := applyOrderBy dataQuery orderBy in
  let* r := await (Await dataQuery) in
  settle r (data r).

Definition findPaginated (options : FindPaginatedOptions) : Promise PaginatedResult :=
  let offset := (page options - 1) * pageSize options in
  let* totalCount := getTotalCount (pg_filter options) in
  let totalPages := Math_ceil (div totalCount (pageSize options)) in
  let* items :=
    getPaginatedData offset (pageSize options) (pg_filter options) (pg_orderBy options) in
  ret {| items := items;
         pagination := {| Pagination.page := page options;
                          Pagination.pageSize := pageSize options;
                          Pagination.totalCount := totalCount;
                          Pagination.totalPages := totalPages |} |}.

Definition create (values : Row) : Promise Data :=
  let* r := await (InsertSelectSingle tableName values) in
  settle r (data r).

Definition update (id : Scalar) (values : Row) : Promise Data :=
  let* r := await (UpdateEqSelectSingle tableName values "id" id) in
  settle r (data r).

Definition delete (id : Scalar) : Promise unit :=
  let* r := await (DeleteEq tableName "id" id) in
  settle r tt.

Definition upsert (values : Row) (conflictColumns : list string) : Promise Data :=
  let* r := await (UpsertSelectSingle tableName values (join conflictColumns ",")) in
  settle r (data r).

(** [exists] is a keyword here, hence the underscore. *)
Definition exists_ (filter : FilterFunction) : Promise bool :=
  let query := Client.select tableName (Some "id") head_count in
  let query := filter query in
  let* r := await (Await query) in
  settle r (0 <? (count r ?? 0)).

Definition count (filter : option FilterFunction) : Promise Z :=
  let query := Client.select tableName (Some "*") head_count in
  let query := applyFilter filter query in
  let* r := await (Await query) in
  settle r (count r ?? 0).

Definition createMany (records : list Row) : Promise Data :=
  let* r := await (InsertSelect tableName records) in
  settle r (data r).

(** The body of the loop of [updateMany], with [results] as it stands
    when the loop reaches [records]. *)
Fixpoint updateMany_loop (records : list Row) (results : list Data)
    : Promise (list Data) :=
  match records with
  | [] => ret results
  | record :: rest =>
      let id := prop record "id" in
      let updateData := base.delete "id" record in
      let* updatedRecord := update id updateData in
      updateMany_loop rest (results ++ [updatedRecord])
  end.

Definition updateMany (records : list Row) : Promise (list Data) :=
  updateMany_loop records [].

Definition deleteMany (ids : list Scalar) : Promise unit :=
  let* r := await (DeleteIn tableName "id" ids) in
  settle r tt.

End Methods.
End BaseRepository.

(** ** The mock client of the test suite ([tests/mock-supabase-client.ts]) *)

(** [Array.prototype.slice(start, end)] with integer arguments. *)
Definition slice {A} (l : list A) (start end_ : Z) : list A :=
  let len := Z.of_nat (length l) in
  let clamp i := if i <? 0 then Z.max (len + i) 0 else Z.min i len in
  let k := clamp start in
  let final := clamp end_ in
  take (Z.to_nat (final - k)) (drop (Z.to_nat k) l).

(** [Array.prototype.findIndex]; [None] is the [-1] of the source. *)
Fixpoint findIndex {A} (p : A -> bool) (l : list A) : option nat :=
  match l with
  | [] => None
  | x :: rest => if p x then Some 0%nat else S <$> findIndex p rest
  end.

(** [String.prototype.split] on a one-character separator. *)
Fixpoint split_from (sep : Ascii.ascii) (current : string) (s : string) : list string :=
  match s with
  | EmptyString => [current]
  | String c rest =>
      if Ascii.eqb c sep then current :: split_from sep "" rest
      else split_from sep (current +:+ String c "") rest
  end.

Definition split (s : string) (sep : Ascii.ascii) : list string :=
  split_from sep "" s.

Module Mock.

(** [new Error(message)] *)
Definition Error (msg : string) : ClientError :=
  {| message := msg; code := None |}.

(** State of a [MockSupabaseClient]: the tables, and the clock that
    [Date.now()] reads. *)
Record MockSupabaseClient := {
  mockData : gmap string (list Row);
  now : Z
}.

Record MockPostgrestQueryBuilder := {
  tableName : string;
  filters : list (Row -> bool);
  orderBy : list (string * bool);
  selectFields : string;
  rangeStart : option Z;
  rangeEnd : option Z;
  isCountQuery : bool;
  isHeadOnly : bool
}.

(** [client.from(tableName)] *)
Definition from (table : string) : MockPostgrestQueryBuilder :=
  {| tableName := table; filters := []; orderBy := []; selectFields := "*";
     rangeStart := None; rangeEnd := None;
     isCountQuery := false; isHeadOnly := false |}.

Definition select (fields : option string) (options : option SelectOptions)
    (b : MockPostgrestQueryBuilder) : MockPostgrestQueryBuilder :=
  {| tableName := tableName b;
     filters := filters b;
     orderBy := orderBy b;
     selectFields := fields ?? "*";
     rangeStart := rangeStart b;
     rangeEnd := rangeEnd b;
     isCountQuery :=
       if bool_decide ((options ≫= opt_count) = Some "exact") then true
       else isCountQuery b;
     isHeadOnly :=
       if from_option opt_head false options then true else isHeadOnly b |}.

Definition push_filter (p : Row -> bool) (b : MockPostgrestQueryBuilder)
    : MockPostgrestQueryBuilder :=
  {| tableName := tableName b;
     filters := filters b ++ [p];
     orderBy := orderBy b;
     selectFields := selectFields b;
     rangeStart := rangeStart b;
     rangeEnd := rangeEnd b;
     isCountQuery := isCountQuery b;
     isHeadOnly := isHeadOnly b |}.

Definition eq (column : string) (value : Scalar) : MockPostgrestQueryBuilder -> MockPostgrestQueryBuilder :=
  push_filter (fun item => strict_eq (prop item column) value).

Definition neq (column : string) (value : Scalar) : MockPostgrestQueryBuilder -> MockPostgrestQueryBuilder :=
  push_filter (fun item => negb (strict_eq (prop item column) value)).

(** [values.includes(x)] *)
Definition includes (values : list Scalar) (x : Scalar) : bool :=
  existsb (strict_eq x) values.

Definition in_ (column : string) (values : list Scalar) : MockPostgrestQueryBuilder -> MockPostgrestQueryBuilder :=
  push_filter (fun item => includes values (prop item column)).

Definition order (column : string) (ascending : bool) (b : MockPostgrestQueryBuilder)
    : MockPostgrestQueryBuilder :=
  {| tableName := tableName b;
     filters := filters b;
     orderBy := orderBy b ++ [(column, ascending)];
     selectFields := selectFields b;
     rangeStart := rangeStart b;
     rangeEnd := rangeEnd b;
     isCountQuery := isCountQuery b;
     isHeadOnly := isHeadOnly b |}.

Definition range (start end_ : Z) (b : MockPostgrestQueryBuilder)
    : MockPostgrestQueryBuilder :=
  {| tableName := tableName b;
     filters := filters b;
     orderBy := orderBy b;
     selectFields := selectFields b;
     rangeStart := Some start;
     rangeEnd := Some end_;
     isCountQuery := isCountQuery b;
     isHeadOnly := isHeadOnly b |}.

(** [this.mockData.get(table) || []] *)
Definition tableData (table : string) (s : MockSupabaseClient) : list Row :=
  default [] (mockData s !! table).

(** [this.mockData.set(table, rows)] *)
Definition setTableData (table : string) (rows : list Row) (s : MockSupabaseClient)
    : MockSupabaseClient :=
  {| mockData := <[table := rows]> (mockData s); now := now s |}.

Section Runtime.

(** The sort of the runtime and its [<] on column values. *)
Variable sort : (Row -> Row -> Z) -> list Row -> list Row.
Variable lt : Scalar -> Scalar -> bool.

(** The comparator handed to [sort] in [executeQuery]. *)
Fixpoint compareRows (orders : list (string * bool)) (a b : Row) : Z :=
  match orders with
  | [] => 0
  | (column, ascending) :: rest =>
      let aVal := prop a column in
      let bVal := prop b column in
      if lt aVal bVal then (if ascending then -1 else 1)
      else if lt bVal aVal then (if ascending then 1 else -1)
      else compareRows rest a b
  end.

Definition executeQuery (b : MockPostgrestQueryBuilder) (s : MockSupabaseClient) : Response :=
  let filteredData :=
    fold_left (fun rows p => List.filter p rows) (filters b) (tableData (tableName b) s) in
  let filteredData :=
    match orderBy b with
    | [] => filteredData
    | _ => sort (compareRows (orderBy b)) filteredData
    end in
  let n := Z.of_nat (length filteredData) in
  let filteredData :=
    match rangeStart b, rangeEnd b with
    | Some start, Some end_ => slice filteredData start (end_ + 1)
    | _, _ => filteredData
    end in
  if isHeadOnly b then {| data := DNull; error := None; count := Some n |}
  else {| data := DRows filteredData; error := None;
          count := if isCountQuery b then Some n else None |}.

Definition single (b : MockPostgrestQueryBuilder) (s : MockSupabaseClient) : Response :=
  let result := executeQuery b s in
  match error result with
  | Some _ => result
  | None =>
      match data result with
      | DRows [row] => {| data := DRow row; error := None; count := None |}
      | DRows (_ :: _ :: _) =>
          {| data := DNull; error := Some (Error "Multiple rows returned"); count := None |}
      | _ => {| data := DNull; error := None; count := None |}
      end
  end.

(** [`mock-id-${Date.now()}-${index}`] *)
Definition mock_id_indexed (s : MockSupabaseClient) (index : nat) : string :=
  "mock-id-" +:+ pretty (now s) +:+ "-" +:+ pretty index.

(** [`mock-id-${Date.now()}`] *)
Definition mock_id (s : MockSupabaseClient) : string :=
  "mock-id-" +:+ pretty (now s).

(** [{ ...a, ...b }]: the properties of [b] win. *)
Definition spread (a b : Row) : Row := b ∪ a.

(** [insert(data)]: the rows as stored, and the state after. *)
Definition insert (table : string) (insertData : list Row) (s : MockSupabaseClient)
    : list Row * MockSupabaseClient :=
  let insertedData :=
    imap (fun index item => spread {[ "id" := SStr (mock_id_indexed s index) ]} item)
         insertData in
  (insertedData, setTableData table (tableData table s ++ insertedData) s).

Definition update (table : string) (values : Row) (column : string) (value : Scalar)
    (s : MockSupabaseClient) : Response * MockSupabaseClient :=
  let rows := tableData table s in
  match findIndex (fun item => strict_eq (prop item column) value) rows with
  | None => ({| data := DNull; error := Some (Error "No rows updated"); count := None |}, s)
  | Some itemIndex =>
      let updatedItem := spread (default ∅ (rows !! itemIndex)) values in
      ({| data := DRow updatedItem; error := None; count := None |},
       setTableData table (<[itemIndex := updatedItem]> rows) s)
  end.

Definition upsert (table : string) (item : Row) (onConflict : string)
    (s : MockSupabaseClient) : Response * MockSupabaseClient :=
  let rows := tableData table s in
  let conflictColumns := split onConflict ","%char in
  let matches existing :=
    existsb
      (fun column =>
         negb (strict_eq (prop existing column) SUndefined)
         && strict_eq (prop existing column) (prop item column))
      conflictColumns in
  match findIndex matches rows with
  | Some existingIndex =>
      let updated := spread (default ∅ (rows !! existingIndex)) item in
      ({| data := DRow updated; error := None; count := None |},
       setTableData table (<[existingIndex := updated]> rows) s)
  | None =>
      let newItem :=
        if truthy (prop item "id") then item
        else spread {[ "id" := SStr (mock_id s) ]} item in
      ({| data := DRow newItem; error := None; count := None |},
       setTableData table (rows ++ [newItem]) s)
  end.

Definition delete_eq (table column : string) (value : Scalar) (s : MockSupabaseClient)
    : Response * MockSupabaseClient :=
  ({| data := DNull; error := None; count := None |},
   setTableData table
     (List.filter (fun item => negb (strict_eq (prop item column) value)) (tableData table s)) s).

Definition delete_in (table column : string) (values : list Scalar) (s : MockSupabaseClient)
    : Response * MockSupabaseClient :=
  ({| data := DNull; error := None; count := None |},
   setTableData table
     (List.filter (fun item => negb (includes values (prop item column))) (tableData table s)) s).

(** One awaited call on the mock. *)
Definition answer (r : Request MockPostgrestQueryBuilder) (s : MockSupabaseClient)
    : Response * MockSupabaseClient :=
  match r with
  | Await q => (executeQuery q s, s)
  | Single q => (single q s, s)
  | InsertSelectSingle table values =>
      let (insertedData, s') := insert table [values] s in
      ({| data := match insertedData with row :: _ => DRow row | [] => DNull end;
          error := None; count := None |}, s')
  | InsertSelect table values =>
      let (insertedData, s') := insert table values s in
      ({| data := DRows insertedData; error := None; count := None |}, s')
  | UpdateEqSelectSingle table values column value => update table values column value s
  | DeleteEq table column value => delete_eq table column value s
  | DeleteIn table column values => delete_in table column values s
  | UpsertSelectSingle table values onConflict => upsert table values onConflict s
  end.

#[local] Instance client : SupabaseClient := {|
  Client.Builder := MockPostgrestQueryBuilder;
  Client.Server := MockSupabaseClient;
  Client.select := fun table fields options => select fields options (from table);
  Client.eq := eq;
  Client.order := order;
  Client.range := range;
  Client.answer := answer
|}.

End Runtime.
End Mock.

(** ** A runtime for the mock *)

Module Runtime.

(** [a < b] on two numbers or two strings.  Operands of other or mixed
    types, which JavaScript converts first, compare as unordered. *)
Definition lt (a b : Scalar) : bool :=
  match a, b with
  | SNum x, SNum y => x <? y
  | SStr x, SStr y => String.ltb x y
  | _, _ => false
  end.

Fixpoint insert_sorted (cmp : Row -> Row -> Z) (x : Row) (l : list Row) : list Row :=
  match l with
  | [] => [x]
  | y :: rest => if 0 <? cmp x y then y :: insert_sorted cmp x rest else x :: l
  end.

(** A stable sort, as [Array.prototype.sort] is. *)
Definition sort (cmp : Row -> Row -> Z) (l : list Row) : list Row :=
  foldr (insert_sorted cmp) [] l.

#[local] Instance mock : SupabaseClient := Mock.client sort lt.

(** Nothing sent yet, the mock holding [tables]. *)
Definition start (tables : gmap string (list Row)) (clock : Z) : World :=
  {| server := {| Mock.mockData := tables; Mock.now := clock |} : Client.Server;
     trace := [] |}.

End Runtime.

(** ** A client that answers from a script

    Any sequence of answers a client may give can be played back with it:
    the builder only writes down the calls made on it, and each awaited
    request takes the next prepared response. *)

Module Scripted.

Inductive Step :=
| Select (table : string) (columns : option string) (options : option SelectOptions)
| Eq (column : string) (value : Scalar)
| Order (column : string) (ascending : bool)
| Range (start end_ : Z)
| Filter (name : string) (column : string) (value : Scalar).

Definition nothing : Response := {| data := DNull; error := None; count := None |}.

Definition answer (r : Request (list Step)) (script : list Response)
    : Response * list Response :=
  match script with
  | [] => (nothing, [])
  | resp :: rest => (resp, rest)
  end.

#[local] Instance client : SupabaseClient := {|
  Client.Builder := list Step;
  Client.Server := list Response;
  Client.select := fun table columns options => [Select table columns options];
  Client.eq := fun column value q => (q ++ [Eq column value])%list;
  Client.order := fun column ascending q => (q ++ [Order column ascending])%list;
  Client.range := fun start end_ q => (q ++ [Range start end_])%list;
  Client.answer := answer
|}.

(** Nothing sent yet, [script] still to play. *)
Definition start (script : list Response) : World :=
  {| server := script : Client.Server; trace := [] |}.

End Scripted.

(** ** Reading a trace *)

Section Traces.

Context {B : Type}.

Definition requests (evs : list (Event B)) : list (Request B) :=
  omap (fun ev => match ev with Issued r => Some r | Settled _ => None end) evs.

Definition responses (evs : list (Event B)) : list Response :=
  omap (fun ev => match ev with Settled r => Some r | Issued _ => None end) evs.

(** Requests sent and not yet answered at the end of [evs]. *)
Fixpoint in_flight (evs : list (Event B)) : Z :=
  match evs with
  | [] => 0
  | Issued _ :: rest => in_flight rest + 1
  | Settled _ :: rest => in_flight rest - 1
  end.

(** One request and its answer after the other. *)
Definition exchanges (ex : list (Request B * Response)) : list (Event B) :=
  flat_map (fun p => [Issued (fst p); Settled (snd p)]) ex.

End Traces.

(** ** What each method sends and what it makes of the answer *)

Section Requests.

Context `{C : SupabaseClient}.
Variable tableName : string.

(** What the client answers to [r] in world [w], and the world after. *)
Definition reply (r : Request Builder) (w : World) : Response :=
  fst (Client.answer r (server w)).

Definition after (r : Request Builder) (w : World) : World :=
  {| server := snd (Client.answer r (server w));
     trace := trace w ++ [Issued r; Settled (reply r w)] |}.

(** [if (error) throw error; return value] after the answer is in. *)
Definition settled {A} (resp : Response) (value : A) : Outcome A :=
  match error resp with
  | Some e => Throw e
  | None => Return value
  end.

(** The single-row select [get] sends for [id]. *)
Definition get_request (id : Scalar) : Request Builder :=
  Single (Client.eq "id" id (Client.select tableName None None)).

Definition find_request (options : BaseRepository.FindOptions) : Request Builder :=
  Await
    (BaseRepository.applyOrderBy
       (BaseRepository.applyFilter (BaseRepository.opt_filter options)
          (Client.select tableName None None))
       (BaseRepository.opt_orderBy options)).

(** The head-only, exact-count select on [columns], filtered. *)
Definition head_count_request (columns : string)
    (filter : option BaseRepository.FilterFunction) : Request Builder :=
  Await
    (BaseRepository.applyFilter filter
       (Client.select tableName (Some columns)
          (Some {| opt_count := Some "exact"; opt_head := true |}))).

Definition data_request (offset pageSize : Z)
    (filter : option BaseRepository.FilterFunction) (orderBy : option OrderByArg)
    : Request Builder :=
  Await
    (BaseRepository.applyOrderBy
       (BaseRepository.applyFilter filter
          (Client.range offset (offset + pageSize - 1)
             (Client.select tableName None None)))
       orderBy).

(** The two requests of [findPaginated] and the result it builds. *)
Definition count_request (options : BaseRepository.FindPaginatedOptions) : Request Builder :=
  head_count_request "*" (BaseRepository.pg_filter options).

Definition page_request (options : BaseRepository.FindPaginatedOptions) : Request Builder :=
  data_request
    ((BaseRepository.page options - 1) * BaseRepository.pageSize options)
    (BaseRepository.pageSize options)
    (BaseRepository.pg_filter options) (BaseRepository.pg_orderBy options).

Definition page_result (options : BaseRepository.FindPaginatedOptions)
    (totalCount : Z) (rows : Data) : PaginatedResult :=
  {| items := rows;
     pagination :=
       {| Pagination.page := BaseRepository.page options;
          Pagination.pageSize := BaseRepository.pageSize options;
          Pagination.totalCount := totalCount;
          Pagination.totalPages :=
            Math_ceil (div totalCount (BaseRepository.pageSize options)) |} |}.

(** [{ count: 'exact', head: true }] *)
Definition exact_head : option SelectOptions :=
  Some {| opt_count := Some "exact"; opt_head := true |}.

(** The update sent for one record: everything but [id] as the new values,
    [id] as the row to change. *)
Definition update_request (record : Row) : Request Builder :=
  UpdateEqSelectSingle tableName (base.delete "id" record) "id" (prop record "id").

(** The client answering [reqs] one after the other, up to and including
    the first answer with an error. *)
Fixpoint serve (reqs : list (Request Builder)) (s : Server)
    : list (Request Builder * Response) * Server :=
  match reqs with
  | [] => ([], s)
  | r :: rest =>
      let (resp, s1) := Client.answer r s in
      match error resp with
      | Some _ => ([(r, resp)], s1)
      | None => let (ex, s2) := serve rest s1 in ((r, resp) :: ex, s2)
      end
  end.

(** What the loop makes of the answers, starting from [results]. *)
Fixpoint collected (results : list Data) (ex : list (Request Builder * Response))
    : Outcome (list Data) :=
  match ex with
  | [] => Return results
  | (_, resp) :: rest =>
      match error resp with
      | Some e => Throw e
      | None => collected (results ++ [data resp]) rest
      end
  end.

(** The state after the client has answered [reqs] in turn. *)
Definition answered (reqs : list (Request Builder)) (s : Server) : Server :=
  fold_left (fun s r => snd (Client.answer r s)) reqs s.

(** A call of one of the public methods, with its arguments. *)
Inductive Operation :=
| Get (id : Scalar)
| Find (options : BaseRepository.FindOptions)
| FindPaginated (options : BaseRepository.FindPaginatedOptions)
| Create (values : Row)
| CreateMany (records : list Row)
| Update (id : Scalar) (values : Row)
| Delete (id : Scalar)
| DeleteMany (ids : list Scalar)
| Upsert (values : Row) (conflictColumns : list string)
| Exists (filter : BaseRepository.FilterFunction)
| Count (filter : option BaseRepository.FilterFunction).

(** What a call resolves to. *)
Inductive Returned :=
| OfData (d : Data)
| OfPage (p : PaginatedResult)
| OfVoid
| OfBool (b : bool)
| OfNumber (n : Z).

Definition returning {A} (f : A -> Returned) (m : Promise A) : Promise Returned :=
  let* x := m in ret (f x).

Definition perform (op : Operation) : Promise Returned :=
  match op with
  | Get id => returning OfData (BaseRepository.get tableName id)
  | Find options => returning OfData (BaseRepository.find tableName options)
  | FindPaginated options => returning OfPage (BaseRepository.findPaginated tableName options)
  | Create values => returning OfData (BaseRepository.create tableName values)
  | CreateMany records => returning OfData (BaseRepository.createMany tableName records)
  | Update id values => returning OfData (BaseRepository.update tableName id values)
  | Delete id => returning (fun _ => OfVoid) (BaseRepository.delete tableName id)
  | DeleteMany ids => returning (fun _ => OfVoid) (BaseRepository.deleteMany tableName ids)
  | Upsert values conflictColumns =>
      returning OfData (BaseRepository.upsert tableName values conflictColumns)
  | Exists filter => returning OfBool (BaseRepository.exists_ tableName filter)
  | Count filter => returning OfNumber (BaseRepository.count tableName filter)
  end.

End Requests.

(** ** Notions the properties are stated with *)

(** [n = ceil(a / b)] as mathematics has it: [n] is the least integer that
    is not below the quotient [a / b]. *)
Definition ceiling_of (n a b : Z) : Prop :=
  (inject_Z (n - 1) < inject_Z a / inject_Z b)%Q
  /\ (inject_Z a / inject_Z b <= inject_Z n)%Q.

(** [Number.isSafeInteger]: an integer of magnitude at most [2^53 - 1], the
    range in which the sums, differences and products of the source's
    numbers are the integers' own as long as the result stays inside it. *)
Definition safe_integer (z : Z) : Prop :=
  - (2 ^ 53 - 1) <= z <= 2 ^ 53 - 1.

(** [page], [pageSize] and every number [findPaginated] computes on the
    way to its range, [page - 1], the offset [(page - 1) * pageSize],
    [offset + pageSize] and [offset + pageSize - 1], are safe integers; and
    an offset of 0 is not the product of a zero and a negative number,
    which the source's numbers make a negative zero. *)
Definition exact_offsets (page pageSize : Z) : Prop :=
  safe_integer page /\ safe_integer pageSize /\ safe_integer (page - 1)
  /\ safe_integer ((page - 1) * pageSize)
  /\ safe_integer ((page - 1) * pageSize + pageSize)
  /\ safe_integer ((page - 1) * pageSize + pageSize - 1)
  /\ ((page - 1) * pageSize = 0 -> 0 <= page - 1 /\ 0 <= pageSize).

(** A filter function that only adds conditions, as [eq], [neq], [gt],
    [ilike], [in] and the other filter methods of the mock builder do. *)
Definition adds_conditions
    (filter : option (Mock.MockPostgrestQueryBuilder -> Mock.MockPostgrestQueryBuilder))
    : Prop :=
  match filter with
  | None => True
  | Some f =>
      forall b, exists conditions,
        f b = fold_left (fun q p => Mock.push_filter p q) conditions b
  end.

(** The part of a builder that decides how many rows come back. *)
Definition window (b : Mock.MockPostgrestQueryBuilder) : option Z * option Z * bool :=
  (Mock.rangeStart b, Mock.rangeEnd b, Mock.isHeadOnly b).

(** The [items] of a page that was returned. *)
Definition items_of (out : Outcome PaginatedResult) : option Data :=
  match out with
  | Return result => Some (items result)
  | Throw _ => None
  end.

(** The error with which the real client marks a lookup that matched no
    row ([docs/api.md], Error Handling). *)
Definition PGRST116 (msg : string) : ClientError :=
  {| message := msg; code := Some "PGRST116" |}.

(** ** The table of the test suite ([testData] in the test files) *)

Module Fixture.

Definition user (id name email : string) (age : Z) (created updated : string) : Row :=
  {[ "id" := SStr id; "name" := SStr name; "email" := SStr email; "age" := SNum age;
     "created_at" := SStr created; "updated_at" := SStr updated ]}.

Definition john : Row :=
  user "1" "John Doe" "john@example.com" 30 "2024-01-01T00:00:00Z" "2024-01-01T00:00:00Z".

Definition jane : Row :=
  user "2" "Jane Smith" "jane@example.com" 25 "2024-01-02T00:00:00Z" "2024-01-02T00:00:00Z".

Definition bob : Row :=
  user "3" "Bob Johnson" "bob@example.com" 35 "2024-01-03T00:00:00Z" "2024-01-03T00:00:00Z".

(** [mockClient.setTableData('users', testData)] on a fresh mock. *)
Definition users : World :=
  Runtime.start {[ "users" := [john; jane; bob] ]} 1704067200000.

End Fixture.

(** ** Inputs of the examples *)

(** The first page of two of the three users, by name. *)
Definition first_page_of_two : BaseRepository.FindPaginatedOptions (C := Runtime.mock) :=
  {| BaseRepository.page := 1;
     BaseRepository.pageSize := 2;
     BaseRepository.pg_filter := None;
     BaseRepository.pg_orderBy := Some (OneOrder {| column := "name"; ascending := Some true |}) |}.




(** The updates of the test "should update multiple records". *)
Definition two_updates : list Row :=
  [ {[ "id" := SStr "1"; "name" := SStr "John Updated"; "age" := SNum 31 ]};
    {[ "id" := SStr "2"; "name" := SStr "Jane Updated"; "age" := SNum 26 ]} ].

(** Three updates of which the second names a row that is not there. *)
Definition updates_with_stranger : list Row :=
  [ {[ "id" := SStr "1"; "name" := SStr "Only Name Updated" ]};
    {[ "id" := SStr "9"; "name" := SStr "Nobody" ]};
    {[ "id" := SStr "2"; "age" := SNum 99 ]} ].

(** A page size below zero, and a filter that sets a range of its own. *)
Definition page_of_negative_size : BaseRepository.FindPaginatedOptions (C := Runtime.mock) :=
  {| BaseRepository.page := 1;
     BaseRepository.pageSize := -1;
     BaseRepository.pg_filter := None;
     BaseRepository.pg_orderBy := None |}.

(** [(query) => query.range(0, 2)] *)
Definition ranging_filter : BaseRepository.FilterFunction (C := Runtime.mock) :=
  Mock.range 0 2.

Definition page_with_ranging_filter : BaseRepository.FindPaginatedOptions (C := Runtime.mock) :=
  {| BaseRepository.page := 1;
     BaseRepository.pageSize := 1;
     BaseRepository.pg_filter := Some ranging_filter;
     BaseRepository.pg_orderBy := None |}.

(** What [findPaginated] returns for the first page of two. *)
Definition first_page_result : PaginatedResult :=
  Eval vm_compute in
    match fst (BaseRepository.findPaginated (C := Runtime.mock) "users"
                 first_page_of_two Fixture.users) with
    | Return result => result
    | Throw _ => {| items := DNull; pagination := Pagination.Build_t 0 0 0 NaN |}
    end.

(** ** Filters of the mock, by the conditions they add *)

(** The filter function that adds [conditions], one after the other. *)
Definition pushes (conditions : list (Row -> bool))
    : Mock.MockPostgrestQueryBuilder -> Mock.MockPostgrestQueryBuilder :=
  fun b => fold_left (fun q p => Mock.push_filter p q) conditions b.

(** [filter] adds exactly [conditions]; no filter adds none. *)
Definition adds
    (filter : option (Mock.MockPostgrestQueryBuilder -> Mock.MockPostgrestQueryBuilder))
    (conditions : list (Row -> bool)) : Prop :=
  match filter with
  | None => conditions = []
  | Some f => forall b, f b = pushes conditions b
  end.

(** The row passes every one of the conditions. *)
Definition satisfies (conditions : list (Row -> bool)) (row : Row) : bool :=
  forallb (fun p => p row) conditions.

(** The [(column, ascending)] pairs an [orderBy] option stands for. *)
Definition order_pairs (orderBy : option OrderByArg) : list (string * bool) :=
  match orderBy with
  | None => []
  | Some ob => map (fun o => (column o, ascending o ?? true)) (orderByArray ob)
  end.

(** [item => item.id === id], the condition [eq('id', id)] adds. *)
Definition has_id (id : Scalar) (item : Row) : bool :=
  strict_eq (prop item "id") id.

(** The rows a query of the mock works on: those of the table that pass
    the conditions, sorted when an ordering is given. *)
Definition selected (sort : (Row -> Row -> Z) -> list Row -> list Row)
    (lt : Scalar -> Scalar -> bool) (table : string)
    (conditions : list (Row -> bool)) (orders : list (string * bool))
    (s : Mock.MockSupabaseClient) : list Row :=
  match orders with
  | [] => List.filter (satisfies conditions) (Mock.tableData table s)
  | _ => sort (Mock.compareRows lt orders)
           (List.filter (satisfies conditions) (Mock.tableData table s))
  end.

(** ** Conflict columns *)

(** The character occurs in the string. *)
Fixpoint has_char (ch : Ascii.ascii) (s : string) : bool :=
  match s with
  | EmptyString => false
  | String c rest => Ascii.eqb c ch || has_char ch rest
  end.

(** The test of the mock's [upsert] for "this row is the one to update":
    on one of the conflict columns the row has a value, and it is the
    value of the item. *)
Definition conflicts (conflictColumns : list string) (item existing : Row) : bool :=
  existsb
    (fun column =>
       negb (strict_eq (prop existing column) SUndefined)
       && strict_eq (prop existing column) (prop item column))
    conflictColumns.

(** The row the mock's [upsert] stores when it inserts: the item, with a
    generated id when its own is missing or falsy. *)
Definition stored (values : Row) (s : Mock.MockSupabaseClient) : Row :=
  if truthy (prop values "id") then values
  else values ∪ {[ "id" := SStr (Mock.mock_id s) ]}.

(** ** The example repository ([example/user-repository.ts]) *)

Module MockBuilder.

(** The [not] of the mock's query builder: only "is not null" adds a
    condition. *)
Definition not (column operator : string) (value : Scalar)
    (b : Mock.MockPostgrestQueryBuilder) : Mock.MockPostgrestQueryBuilder :=
  if String.eqb operator "is" && bool_decide (value = SNull)
  then Mock.push_filter (fun item => negb (strict_eq (prop item column) SNull)) b
  else b.

End MockBuilder.

Module UserRepository.

(** What [users[0] || null] can be: a row, null, or, should [users] be
    an object and no array, the truthy value of its property "0". *)
Inductive Found :=
| FoundRow (user : Row)
| FoundNull
| FoundValue (v : Scalar).

Section Methods.

Context `{C : SupabaseClient}.

(** The builder's [not(column, operator, value)], which the interface
    above leaves out. *)
Variable not_ : string -> string -> Scalar -> Builder -> Builder.

(** The error the runtime raises on [users[0]] when [users] is null. *)
Variable TypeError : ClientError.

Definition findByEmail (email : string) : Promise Found :=
  let* users :=
    BaseRepository.find "users"
      {| BaseRepository.opt_filter := Some (Client.eq "email" (SStr email));
         BaseRepository.opt_orderBy := None |} in
  match users with
  | DNull => throw TypeError
  | DRows (user :: _) => ret (FoundRow user)
  | DRows [] => ret FoundNull
  | DRow object =>
      if truthy (prop object "0") then ret (FoundValue (prop object "0"))
      else ret FoundNull
  end.

Definition findActiveUsers : Promise Data :=
  BaseRepository.find "users"
    {| BaseRepository.opt_filter := Some (not_ "deleted_at" "is" SNull);
       BaseRepository.opt_orderBy :=
         Some (OneOrder {| column := "created_at"; ascending := Some false |}) |}.

End Methods.
End UserRepository.

(** ** Inputs of the further examples *)

(** [(query) => query.eq('email', 'john@example.com')] and the condition
    it adds. *)
Definition johns_email : Row -> bool :=
  fun item => strict_eq (prop item "email") (SStr "john@example.com").


(** John under a new name, to be matched by email. *)
Definition john_renamed : Row :=
  {[ "email" := SStr "john@example.com"; "name" := SStr "John Updated" ]}.

(** A row without an email. *)
Definition nameless_email : Row := {[ "name" := SStr "No Email" ]}.

(** * Properties *)

(** ** Traces of exchanges *)

Section TraceFacts.

Context {B : Type}.

Lemma requests_app (a b : list (Event B)) :
  requests (a ++ b) = requests a ++ requests b.
Proof. apply omap_app. Qed.

Lemma responses_app (a b : list (Event B)) :
  responses (a ++ b) = responses a ++ responses b.
Proof. apply omap_app. Qed.

Lemma requests_exchanges (ex : list (Request B * Response)) : requests (exchanges ex) = map fst ex.
Proof. induction ex as [|[rq rs] ex IH]; simpl; [reflexivity|]. f_equal. exact IH. Qed.

Lemma responses_exchanges (ex : list (Request B * Response)) : responses (exchanges ex) = map snd ex.
Proof. induction ex as [|[rq rs] ex IH]; simpl; [reflexivity|]. f_equal. exact IH. Qed.

Lemma in_flight_app (a b : list (Event B)) :
  in_flight (a ++ b) = in_flight a + in_flight b.
Proof.
  induction a as [|[r|r] a IH]; simpl; [lia| |]; rewrite IH; lia.
Qed.

Lemma in_flight_exchanges (ex : list (Request B * Response)) : in_flight (exchanges ex) = 0.
Proof. induction ex as [|[rq rs] ex IH]; simpl; [reflexivity|]. rewrite IH. lia. Qed.

(** In a run of exchanges no point has more than one request pending. *)
Lemma in_flight_prefix_exchanges (ex : list (Request B * Response)) n :
  0 <= in_flight (take n (exchanges ex)) <= 1.
Proof.
  revert n. induction ex as [|[rq rs] ex IH]; intros n; simpl.
  - rewrite take_nil. simpl. lia.
  - destruct n as [|[|n]]; simpl; [lia..|].
    specialize (IH n). lia.
Qed.

End TraceFacts.

(** ** One round trip *)

Section Runs.

Context `{C : SupabaseClient}.

Lemma await_run r w : await r w = (Return (reply r w), after r w).
Proof.
  unfold await, after, reply. destruct (Client.answer r (server w)) as [resp s] eqn:E.
  simpl. reflexivity.
Qed.

Lemma settle_run {A} resp (value : A) w :
  BaseRepository.settle resp value w = (settled resp value, w).
Proof. unfold BaseRepository.settle, settled. destruct (error resp); reflexivity. Qed.

Lemma await_settle_run {A} r (f : Response -> A) w :
  (let* x := await r in BaseRepository.settle x (f x)) w
  = (settled (reply r w) (f (reply r w)), after r w).
Proof. unfold bind. rewrite await_run, settle_run. reflexivity. Qed.

Lemma settled_error {A} resp (value : A) e :
  error resp = Some e -> settled resp value = Throw e.
Proof. unfold settled. intros ->. reflexivity. Qed.

Lemma settled_ok {A} resp (value : A) :
  error resp = None -> settled resp value = Return value.
Proof. unfold settled. intros ->. reflexivity. Qed.

(** The events of one round trip are the only ones [after] adds. *)
Lemma after_trace_inv r w evs :
  trace (after r w) = trace w ++ evs -> evs = [Issued r; Settled (reply r w)].
Proof. simpl. intros H. apply app_inv_head in H. congruence. Qed.

End Runs.

(** ** [get] *)

Section Get.

Context `{C : SupabaseClient}.
Variable tableName : string.

Lemma get_run id w :
  BaseRepository.get tableName id w
  = (settled (reply (get_request tableName id) w) (data (reply (get_request tableName id) w)),
     after (get_request tableName id) w).
Proof. unfold BaseRepository.get. apply (await_settle_run (get_request tableName id) data). Qed.

(** Whatever error the client reports, a missing row included, is thrown. *)
Lemma get_throws id w e :
  error (reply (get_request tableName id) w) = Some e ->
  fst (BaseRepository.get tableName id w) = Throw e.
Proof. intros H. rewrite get_run. simpl. apply settled_error, H. Qed.

(** Without an error [get] hands back [data], [null] included. *)
Lemma get_returns id w :
  error (reply (get_request tableName id) w) = None ->
  fst (BaseRepository.get tableName id w) = Return (data (reply (get_request tableName id) w)).
Proof. intros H. rewrite get_run. simpl. apply settled_ok, H. Qed.

End Get.

(** On the mock a missing row is answered without an error, and [get]
    returns [null]: the test "should return null when record not found". *)
Section GetOnMock.

Variable sort : (Row -> Row -> Z) -> list Row -> list Row.
Variable lt : Scalar -> Scalar -> bool.

#[local] Existing Instance Mock.client.

Lemma filter_none {A} (p : A -> bool) (l : list A) :
  (forall x, In x l -> p x = false) -> List.filter p l = [].
Proof.
  induction l as [|x l IH]; intros H; simpl; [reflexivity|].
  rewrite (H x) by (left; reflexivity). apply IH. intros y Hy. apply H. right. exact Hy.
Qed.

Lemma get_mock_missing (table : string) (id : Scalar) (w : @World (Mock.client sort lt)) :
  (forall row, In row (Mock.tableData table (server w)) -> prop row "id" <> id) ->
  fst (BaseRepository.get (C := Mock.client sort lt) table id w) = Return DNull.
Proof.
  intros Hmiss. rewrite get_run. simpl.
  unfold reply, get_request. simpl. unfold Mock.single, Mock.executeQuery. simpl.
  rewrite filter_none; [reflexivity|].
  intros row Hrow. unfold strict_eq. apply bool_decide_eq_false. apply Hmiss, Hrow.
Qed.

End GetOnMock.

(** C1.  [get("999")] against a client that reports "no row" the way the
    documented client does, as an error with code PGRST116 and no data:
    [get] throws that error; it does not return [null]. *)
Theorem get_missing_row_error_thrown (msg : string) :
  fst (BaseRepository.get (C := Scripted.client) "users" (SStr "999")
         (Scripted.start [ {| data := DNull; error := Some (PGRST116 msg); count := None |} ]))
  = Throw (PGRST116 msg).
Proof. reflexivity. Qed.

(** ** The methods, one round trip at a time *)

Section Operations.

Context `{C : SupabaseClient}.
Variable tableName : string.

Lemma find_run options w :
  BaseRepository.find tableName options w
  = (settled (reply (find_request tableName options) w) (data (reply (find_request tableName options) w)),
     after (find_request tableName options) w).
Proof.
  unfold BaseRepository.find, find_request, BaseRepository.applyOrderBy.
  destruct (BaseRepository.opt_orderBy options);
    apply (await_settle_run _ data).
Qed.

Lemma getTotalCount_run filter w :
  BaseRepository.getTotalCount tableName filter w
  = (settled (reply (head_count_request tableName "*" filter) w)
       (count (reply (head_count_request tableName "*" filter) w) ?? 0),
     after (head_count_request tableName "*" filter) w).
Proof.
  unfold BaseRepository.getTotalCount.
  apply (await_settle_run (head_count_request tableName "*" filter) (fun r => count r ?? 0)).
Qed.

Lemma getPaginatedData_run offset pageSize filter orderBy w :
  BaseRepository.getPaginatedData tableName offset pageSize filter orderBy w
  = (settled (reply (data_request tableName offset pageSize filter orderBy) w)
       (data (reply (data_request tableName offset pageSize filter orderBy) w)),
     after (data_request tableName offset pageSize filter orderBy) w).
Proof.
  unfold BaseRepository.getPaginatedData.
  apply (await_settle_run (data_request tableName offset pageSize filter orderBy) data).
Qed.

Lemma create_run values w :
  BaseRepository.create tableName values w
  = (settled (reply (InsertSelectSingle tableName values) w)
       (data (reply (InsertSelectSingle tableName values) w)),
     after (InsertSelectSingle tableName values) w).
Proof.
  unfold BaseRepository.create.
  apply (await_settle_run (InsertSelectSingle tableName values) data).
Qed.

Lemma update_run id values w :
  BaseRepository.update tableName id values w
  = (settled (reply (UpdateEqSelectSingle tableName values "id" id) w)
       (data (reply (UpdateEqSelectSingle tableName values "id" id) w)),
     after (UpdateEqSelectSingle tableName values "id" id) w).
Proof.
  unfold BaseRepository.update.
  apply (await_settle_run (UpdateEqSelectSingle tableName values "id" id) data).
Qed.

Lemma delete_run id w :
  BaseRepository.delete tableName id w
  = (settled (reply (DeleteEq tableName "id" id) w) tt,
     after (DeleteEq tableName "id" id) w).
Proof.
  unfold BaseRepository.delete.
  apply (await_settle_run (DeleteEq tableName "id" id) (fun _ => tt)).
Qed.

Lemma upsert_run values conflictColumns w :
  BaseRepository.upsert tableName values conflictColumns w
  = (settled (reply (UpsertSelectSingle tableName values (join conflictColumns ",")) w)
       (data (reply (UpsertSelectSingle tableName values (join conflictColumns ",")) w)),
     after (UpsertSelectSingle tableName values (join conflictColumns ",")) w).
Proof.
  unfold BaseRepository.upsert.
  apply (await_settle_run (UpsertSelectSingle tableName values (join conflictColumns ",")) data).
Qed.

Lemma exists_run filter w :
  BaseRepository.exists_ tableName filter w
  = (settled (reply (head_count_request tableName "id" (Some filter)) w)
       (0 <? (count (reply (head_count_request tableName "id" (Some filter)) w) ?? 0)),
     after (head_count_request tableName "id" (Some filter)) w).
Proof.
  unfold BaseRepository.exists_.
  apply (await_settle_run (head_count_request tableName "id" (Some filter))
           (fun r => 0 <? (count r ?? 0))).
Qed.

Lemma count_run filter w :
  BaseRepository.count tableName filter w
  = (settled (reply (head_count_request tableName "*" filter) w)
       (count (reply (head_count_request tableName "*" filter) w) ?? 0),
     after (head_count_request tableName "*" filter) w).
Proof.
  unfold BaseRepository.count.
  apply (await_settle_run (head_count_request tableName "*" filter) (fun r => count r ?? 0)).
Qed.

Lemma createMany_run records w :
  BaseRepository.createMany tableName records w
  = (settled (reply (InsertSelect tableName records) w)
       (data (reply (InsertSelect tableName records) w)),
     after (InsertSelect tableName records) w).
Proof.
  unfold BaseRepository.createMany.
  apply (await_settle_run (InsertSelect tableName records) data).
Qed.

Lemma deleteMany_run ids w :
  BaseRepository.deleteMany tableName ids w
  = (settled (reply (DeleteIn tableName "id" ids) w) tt,
     after (DeleteIn tableName "id" ids) w).
Proof.
  unfold BaseRepository.deleteMany.
  apply (await_settle_run (DeleteIn tableName "id" ids) (fun _ => tt)).
Qed.

Lemma findPaginated_run options w :
  BaseRepository.findPaginated tableName options w
  = let r1 := reply (count_request tableName options) w in
    let w1 := after (count_request tableName options) w in
    match error r1 with
    | Some e => (Throw e, w1)
    | None =>
        let r2 := reply (page_request tableName options) w1 in
        (settled r2 (page_result options (count r1 ?? 0) (data r2)),
         after (page_request tableName options) w1)
    end.
Proof.
  unfold BaseRepository.findPaginated, bind.
  rewrite getTotalCount_run. fold (count_request tableName options).
  cbv zeta. unfold settled at 1.
  destruct (error (reply (count_request tableName options) w)) as [e|]; [reflexivity|].
  rewrite getPaginatedData_run. fold (page_request tableName options).
  unfold settled, ret.
  destruct (error (reply (page_request tableName options) (after (count_request tableName options) w)));
    reflexivity.
Qed.

End Operations.

(** ** Errors of the client *)

Section Errors.

Context `{C : SupabaseClient}.
Variable tableName : string.

Lemma returning_run {A} (f : A -> Returned) (m : Promise A) w :
  returning f m w
  = (match fst (m w) with Return a => Return (f a) | Throw e => Throw e end, snd (m w)).
Proof. unfold returning, bind, ret. destruct (m w) as [[a|e] w']; reflexivity. Qed.



End Errors.


(** ** [exists] and [count] *)

Section ExistsCount.

Context `{C : SupabaseClient}.
Variable tableName : string.

(** C7.  [exists(filter)] and [count(filter)] each make one round trip,
    for the filter applied to a select with [count: 'exact'] and
    [head: true]; without an error [exists] is true exactly when the count
    the client reports is above zero, and it is [count(filter) > 0]
    whenever the client answers the two with the same count. *)
Theorem exists_is_count_positive (filter : BaseRepository.FilterFunction) :
  let exists_query := Await (filter (Client.select tableName (Some "id") exact_head)) in
  let count_query := Await (filter (Client.select tableName (Some "*") exact_head)) in
  (forall w,
     trace (snd (BaseRepository.exists_ tableName filter w))
     = trace w ++ [Issued exists_query; Settled (reply exists_query w)])
  /\ (forall w,
        trace (snd (BaseRepository.count tableName (Some filter) w))
        = trace w ++ [Issued count_query; Settled (reply count_query w)])
  /\ (forall w,
        error (reply exists_query w) = None ->
        exists b,
          fst (BaseRepository.exists_ tableName filter w) = Return b
          /\ (b = true <-> exists n, count (reply exists_query w) = Some n /\ 0 < n))
  /\ (forall w1 w2,
        error (reply exists_query w1) = None ->
        error (reply count_query w2) = None ->
        count (reply exists_query w1) = count (reply count_query w2) ->
        exists n,
          fst (BaseRepository.count tableName (Some filter) w2) = Return n
          /\ fst (BaseRepository.exists_ tableName filter w1) = Return (0 <? n)).
Proof.
  intros exists_query count_query. repeat split.
  - intros w. rewrite exists_run. reflexivity.
  - intros w. rewrite count_run. reflexivity.
  - intros w Hok. rewrite exists_run. simpl.
    change (head_count_request tableName "id" (Some filter)) with exists_query.
    rewrite (settled_ok _ _ Hok). eexists. split; [reflexivity|].
    destruct (count (reply exists_query w)) as [n|]; simpl.
    + rewrite Z.ltb_lt. split; [intros H; exists n; auto|].
      intros (m & Hm & Hpos). congruence.
    + split; [discriminate|]. intros (m & Hm & _). discriminate.
  - intros w1 w2 Hok1 Hok2 Hsame. rewrite exists_run, count_run. simpl.
    change (head_count_request tableName "id" (Some filter)) with exists_query.
    change (head_count_request tableName "*" (Some filter)) with count_query.
    rewrite (settled_ok _ _ Hok1), (settled_ok _ _ Hok2), Hsame.
    eexists. split; reflexivity.
Qed.

End ExistsCount.

(** [exists] and [count] for [email = "john@example.com"] on the three
    users: one row matches. *)
Lemma exists_is_count_positive_witness :
  fst (BaseRepository.count (C := Runtime.mock) "users"
         (Some (Mock.eq "email" (SStr "john@example.com"))) Fixture.users) = Return 1
  /\ fst (BaseRepository.exists_ (C := Runtime.mock) "users"
            (Mock.eq "email" (SStr "john@example.com")) Fixture.users) = Return true.
Proof.
  destruct (exists_is_count_positive (C := Runtime.mock) "users"
              (Mock.eq "email" (SStr "john@example.com")))
    as (_ & _ & _ & Hsame).
  destruct (Hsame Fixture.users Fixture.users) as (n & Hcount & Hexists);
    [reflexivity..|].
  split; [reflexivity|]. rewrite Hexists. f_equal.
  assert (Hn : Return n = Return 1) by (rewrite <- Hcount; reflexivity).
  injection Hn as ->. reflexivity.
Defined.

(** ** [upsert] *)

Section Upsert.

Context `{C : SupabaseClient}.
Variable tableName : string.

Lemma append_assoc (a b c : string) : (a +:+ b) +:+ c = a +:+ (b +:+ c).
Proof.
  induction a as [|ch a IH]; [reflexivity|].
  change (String ch ((a +:+ b) +:+ c) = String ch (a +:+ (b +:+ c))).
  rewrite IH. reflexivity.
Qed.

Lemma join_from_concat sep acc l :
  join_from sep acc l
  = match l with
    | [] => acc
    | _ => acc +:+ sep +:+ String.concat sep l
    end.
Proof.
  revert acc. induction l as [|x l IH]; intros acc; [reflexivity|].
  simpl. rewrite IH. destruct l as [|y l]; [reflexivity|].
  simpl. rewrite !append_assoc. reflexivity.
Qed.

(** [join] puts the separator between the elements and nowhere else. *)
Lemma join_concat l sep : join l sep = String.concat sep l.
Proof.
  destruct l as [|x l]; [reflexivity|].
  unfold join. rewrite join_from_concat. destruct l; reflexivity.
Qed.

(** C8.  [upsert(data, conflictColumns)] makes one round trip, the
    client's upsert of [data] with the conflict columns, joined by commas,
    as the conflict target; without an error it returns the row of the
    answer. *)
Theorem upsert_one_call (values : Row) (conflictColumns : list string) (w : World) :
  let request :=
    UpsertSelectSingle tableName values (String.concat "," conflictColumns) in
  trace (snd (BaseRepository.upsert tableName values conflictColumns w))
  = trace w ++ [Issued request; Settled (reply request w)]
  /\ (error (reply request w) = None ->
      fst (BaseRepository.upsert tableName values conflictColumns w)
      = Return (data (reply request w))).
Proof.
  intros request. rewrite upsert_run, join_concat. fold request. split.
  - reflexivity.
  - intros Hok. simpl. apply settled_ok, Hok.
Qed.

End Upsert.

(** [upsert] of John under another name, matched on [email]. *)
Lemma upsert_one_call_witness :
  fst (BaseRepository.upsert (C := Runtime.mock) "users"
         {[ "email" := SStr "john@example.com"; "name" := SStr "John Updated" ]}
         ["email"] Fixture.users)
  = Return (DRow (<[ "name" := SStr "John Updated" ]> Fixture.john)).
Proof.
  rewrite (proj2 (upsert_one_call (C := Runtime.mock) "users"
                    {[ "email" := SStr "john@example.com"; "name" := SStr "John Updated" ]}
                    ["email"] Fixture.users));
    vm_compute; reflexivity.
Defined.

(** ** [findPaginated] *)

Lemma Math_ceil_div (a b : Z) :
  b <> 0 ->
  Math_ceil (div a b) = Num (inject_Z (Qceiling (inject_Z a / inject_Z b)))
  /\ ceiling_of (Qceiling (inject_Z a / inject_Z b)) a b.
Proof.
  intros Hb. unfold div. apply Z.eqb_neq in Hb. rewrite Hb. split; [reflexivity|].
  split; [apply Qceiling_lt | apply Qle_ceiling].
Qed.

(** For a positive divisor the ceiling in integers: [b * (n - 1) < a <= b * n]. *)
Lemma ceiling_of_pos (n a b : Z) :
  0 < b -> ceiling_of n a b -> b * (n - 1) < a <= b * n.
Proof.
  intros Hb [Hlo Hhi].
  assert (Hbq : (0 < inject_Z b)%Q).
  { change 0%Q with (inject_Z 0). rewrite <- Zlt_Qlt. exact Hb. }
  assert (Hne : ~ (inject_Z b == 0)%Q)
    by (intros H; rewrite H in Hbq; exact (Qlt_irrefl 0 Hbq)).
  split.
  - rewrite Zlt_Qlt, inject_Z_mult.
    rewrite <- (Qmult_div_r (inject_Z a) (inject_Z b) Hne).
    apply Qmult_lt_l; assumption.
  - rewrite Zle_Qle, inject_Z_mult.
    rewrite <- (Qmult_div_r (inject_Z a) (inject_Z b) Hne) at 1.
    apply Qmult_le_l; assumption.
Qed.


Lemma Math_ceil_zero_by_zero : Math_ceil (div 0 0) = NaN.
Proof. reflexivity. Qed.

Section FindPaginated.

Context `{C : SupabaseClient}.
Variable tableName : string.


End FindPaginated.


(** ** A count query that reports no count *)


Section NullCount.

Context `{C : SupabaseClient}.
Variable tableName : string.


End NullCount.


(** ** [updateMany] *)

Section UpdateMany.

Context `{C : SupabaseClient}.
Variable tableName : string.

Lemma updateMany_loop_run records : forall results w,
  BaseRepository.updateMany_loop tableName records results w
  = (collected results (fst (serve (map (update_request tableName) records) (server w))),
     {| server := snd (serve (map (update_request tableName) records) (server w));
        trace := trace w ++ exchanges (fst (serve (map (update_request tableName) records) (server w))) |}).
Proof.
  induction records as [|record rest IH]; intros results w.
  - simpl. unfold ret. rewrite app_nil_r. destruct w; reflexivity.
  - cbn [BaseRepository.updateMany_loop]. unfold bind. rewrite update_run.
    fold (update_request tableName record). cbn [map serve].
    unfold settled, after, reply.
    destruct (Client.answer (update_request tableName record) (server w)) as [resp s1] eqn:E.
    cbn [fst snd]. destruct (error resp) as [e|] eqn:Herr.
    + cbn. rewrite Herr. reflexivity.
    + rewrite IH. cbn [server trace].
      destruct (serve (map (update_request tableName) rest) s1) as [ex s2].
      cbn. rewrite Herr, <- app_assoc. reflexivity.
Qed.

Lemma serve_requests reqs : forall s,
  map fst (fst (serve reqs s)) = take (length (fst (serve reqs s))) reqs.
Proof.
  induction reqs as [|r rest IH]; intros s; [reflexivity|]. simpl.
  destruct (Client.answer r s) as [resp s1]. destruct (error resp).
  - reflexivity.
  - specialize (IH s1). destruct (serve rest s1) as [ex s2]. simpl in *.
    f_equal. exact IH.
Qed.

Lemma serve_answered reqs : forall s,
  snd (serve reqs s) = answered (map fst (fst (serve reqs s))) s.
Proof.
  induction reqs as [|r rest IH]; intros s; [reflexivity|]. simpl.
  destruct (Client.answer r s) as [resp s1] eqn:E. destruct (error resp).
  - simpl. unfold answered. simpl. rewrite E. reflexivity.
  - specialize (IH s1). destruct (serve rest s1) as [ex s2]. simpl in *.
    unfold answered in *. simpl. rewrite E. exact IH.
Qed.

(** Without an error in the answers every request was served and the
    rows of the answers are the result, in order. *)
Lemma serve_all_ok reqs : forall s results,
  Forall (fun resp => error resp = None) (map snd (fst (serve reqs s))) ->
  length (fst (serve reqs s)) = length reqs
  /\ collected results (fst (serve reqs s))
     = Return (results ++ map data (map snd (fst (serve reqs s)))).
Proof.
  induction reqs as [|r rest IH]; intros s results Hok.
  - simpl. rewrite app_nil_r. split; reflexivity.
  - simpl in *. destruct (Client.answer r s) as [resp s1].
    destruct (error resp) as [e|] eqn:Herr.
    + simpl in Hok. inversion Hok; congruence.
    + specialize (IH s1 (results ++ [data resp])).
      destruct (serve rest s1) as [ex s2]. simpl in *.
      inversion Hok as [|? ? _ Hrest]; subst.
      destruct (IH Hrest) as [Hlen Hcol]. rewrite Herr, Hcol, <- app_assoc.
      split; [congruence | reflexivity].
Qed.

(** An answer with an error is the last one, all before it are without,
    and its error is what the loop throws. *)
Lemma serve_error reqs : forall s results k resp e,
  map snd (fst (serve reqs s)) !! k = Some resp ->
  error resp = Some e ->
  length (fst (serve reqs s)) = S k
  /\ collected results (fst (serve reqs s)) = Throw e
  /\ (forall j rj, (j < k)%nat ->
        map snd (fst (serve reqs s)) !! j = Some rj -> error rj = None).
Proof.
  induction reqs as [|r rest IH]; intros s results k resp e Hk He.
  - discriminate.
  - simpl in *. destruct (Client.answer r s) as [resp1 s1].
    destruct (error resp1) as [e1|] eqn:Herr.
    + destruct k as [|k]; [|discriminate]. simpl in Hk. injection Hk as <-.
      simpl. rewrite Herr. repeat split; [congruence|]. intros j rj Hj. lia.
    + specialize (IH s1 (results ++ [data resp1])).
      destruct (serve rest s1) as [ex s2]. simpl in *.
      destruct k as [|k]; simpl in Hk.
      * injection Hk as <-. congruence.
      * destruct (IH k resp e Hk He) as (Hlen & Hcol & Hbefore).
        rewrite Herr. repeat split; [congruence | exact Hcol |].
        intros [|j] rj Hj Hrj; simpl in Hrj; [congruence|].
        apply (Hbefore j rj); [lia | exact Hrj].
Qed.

(** The events of a run of [updateMany]. *)
Lemma updateMany_trace records w evs :
  trace (snd (BaseRepository.updateMany tableName records w)) = trace w ++ evs ->
  evs = exchanges (fst (serve (map (update_request tableName) records) (server w))).
Proof.
  unfold BaseRepository.updateMany. rewrite updateMany_loop_run. simpl.
  intros H. apply app_inv_head in H. congruence.
Qed.

End UpdateMany.

Section UpdateManyProperties.

Context `{C : SupabaseClient}.
Variable tableName : string.

Lemma In_Issued_exchanges (ex : list (Request Builder * Response)) rq :
  In (Issued rq) (exchanges ex) -> In rq (map fst ex).
Proof.
  induction ex as [|[r resp] ex IH]; simpl; [tauto|].
  intros [H|[H|H]]; [left; congruence | discriminate | right; auto].
Qed.

Lemma In_take {A} (x : A) n (l : list A) : In x (take n l) -> In x l.
Proof.
  revert n. induction l as [|y l IH]; intros [|n]; simpl; try tauto.
  intros [H|H]; [left; exact H | right; eauto].
Qed.

(** C4.  [updateMany(records)] sends one single-row update per record,
    in the order of the list, each only after the answer to the one
    before is in (never more than one pending); when no answer carries an
    error it returns the rows of the answers in that order, as many as
    there are records. *)
Theorem updateMany_sequential (records : list Row) (w : World)
    (evs : list (Event Builder)) :
  trace (snd (BaseRepository.updateMany tableName records w)) = trace w ++ evs ->
  (exists ex, evs = exchanges ex)
  /\ (forall n, 0 <= in_flight (take n evs) <= 1)
  /\ requests evs
     = take (length (requests evs)) (map (update_request tableName) records)
  /\ (Forall (fun resp => error resp = None) (responses evs) ->
      requests evs = map (update_request tableName) records
      /\ fst (BaseRepository.updateMany tableName records w)
         = Return (map data (responses evs))
      /\ length (map data (responses evs)) = length records).
Proof.
  intros Htrace. apply updateMany_trace in Htrace. subst evs.
  set (ex := fst (serve (map (update_request tableName) records) (server w))).
  split; [exists ex; reflexivity|].
  split; [intros n; apply in_flight_prefix_exchanges|].
  rewrite requests_exchanges, responses_exchanges.
  split; [rewrite length_map; apply serve_requests|].
  intros Hok.
  destruct (serve_all_ok _ (server w) [] Hok) as [Hlen Hcol]. fold ex in Hlen, Hcol.
  split; [|split].
  - pose proof (serve_requests (map (update_request tableName) records) (server w)) as H.
    fold ex in H. rewrite H, Hlen. apply firstn_all.
  - unfold BaseRepository.updateMany. rewrite updateMany_loop_run. simpl.
    fold ex. exact Hcol.
  - rewrite !length_map. rewrite Hlen. apply length_map.
Qed.

(** C5.  When the answer to the update of record number [k] (counting
    from 0) carries an error, [updateMany] throws that error; the updates
    sent are those of the records up to that one and no other, the
    earlier ones were answered without error, and the client is left in
    the state those updates put it in: nothing is undone, nothing further
    is sent. *)
Theorem updateMany_stops_at_failure (records : list Row) (w : World)
    (evs : list (Event Builder)) (k : nat) (resp : Response) (e : ClientError) :
  trace (snd (BaseRepository.updateMany tableName records w)) = trace w ++ evs ->
  responses evs !! k = Some resp ->
  error resp = Some e ->
  fst (BaseRepository.updateMany tableName records w) = Throw e
  /\ requests evs = map (update_request tableName) (take (S k) records)
  /\ length (responses evs) = S k
  /\ (forall j rj, (j < k)%nat -> responses evs !! j = Some rj -> error rj = None)
  /\ server (snd (BaseRepository.updateMany tableName records w))
     = answered (map (update_request tableName) (take (S k) records)) (server w).
Proof.
  intros Htrace Hk He. apply updateMany_trace in Htrace. subst evs.
  set (ex := fst (serve (map (update_request tableName) records) (server w))) in *.
  rewrite requests_exchanges, responses_exchanges in *.
  destruct (serve_error _ (server w) [] k resp e Hk He) as (Hlen & Hcol & Hbefore).
  fold ex in Hlen, Hcol, Hbefore.
  assert (Hreqs : map fst ex = map (update_request tableName) (take (S k) records)).
  { unfold ex. rewrite serve_requests. fold ex. rewrite Hlen. apply firstn_map. }
  unfold BaseRepository.updateMany. rewrite updateMany_loop_run. simpl. fold ex.
  repeat split.
  - exact Hcol.
  - exact Hreqs.
  - rewrite length_map. exact Hlen.
  - exact Hbefore.
  - rewrite serve_answered. fold ex. rewrite Hreqs. reflexivity.
Qed.

(** C9.  Every update [updateMany] sends carries the fields of its record
    without [id]: the payload has no [id] column and agrees with the
    record on every other column, and [id] is only used to pick the row. *)
Theorem updateMany_payload_without_id (records : list Row) (w : World)
    (evs : list (Event Builder)) (rq : Request Builder) :
  trace (snd (BaseRepository.updateMany tableName records w)) = trace w ++ evs ->
  In (Issued rq) evs ->
  exists (record values : Row),
    In record records
    /\ rq = UpdateEqSelectSingle tableName values "id" (prop record "id")
    /\ values !! "id" = None
    /\ (forall column, column <> "id" -> values !! column = record !! column).
Proof.
  intros Htrace Hin. apply updateMany_trace in Htrace. subst evs.
  apply In_Issued_exchanges in Hin. rewrite serve_requests in Hin.
  apply In_take, in_map_iff in Hin. destruct Hin as (record & <- & Hrec).
  exists record, (base.delete "id" record). repeat split.
  - exact Hrec.
  - apply lookup_delete_eq.
  - intros column Hne. apply lookup_delete_ne. congruence.
Qed.

End UpdateManyProperties.

Lemma updateMany_sequential_witness :
  fst (BaseRepository.updateMany (C := Runtime.mock) "users" two_updates Fixture.users)
  = Return
      [ DRow (<[ "name" := SStr "John Updated" ]> (<[ "age" := SNum 31 ]> Fixture.john));
        DRow (<[ "name" := SStr "Jane Updated" ]> (<[ "age" := SNum 26 ]> Fixture.jane)) ].
Proof.
  destruct (updateMany_sequential (C := Runtime.mock) "users" two_updates Fixture.users
              (trace (snd (BaseRepository.updateMany (C := Runtime.mock) "users"
                             two_updates Fixture.users)))
              eq_refl) as (_ & _ & _ & Hall).
  destruct Hall as (_ & Hreturn & _).
  - vm_compute. repeat constructor.
  - rewrite Hreturn. vm_compute. reflexivity.
Defined.

(** The second update fails: [updateMany] throws its error, John keeps
    his new name, and Jane's update was never sent. *)
Lemma updateMany_stops_at_failure_witness :
  fst (BaseRepository.updateMany (C := Runtime.mock) "users" updates_with_stranger
         Fixture.users)
  = Throw (Mock.Error "No rows updated")
  /\ Mock.tableData "users"
       (server (snd (BaseRepository.updateMany (C := Runtime.mock) "users"
                       updates_with_stranger Fixture.users)))
     = [ <[ "name" := SStr "Only Name Updated" ]> Fixture.john; Fixture.jane; Fixture.bob ].
Proof.
  destruct (updateMany_stops_at_failure (C := Runtime.mock) "users" updates_with_stranger
              Fixture.users
              (trace (snd (BaseRepository.updateMany (C := Runtime.mock) "users"
                             updates_with_stranger Fixture.users)))
              1%nat
              {| data := DNull; error := Some (Mock.Error "No rows updated"); count := None |}
              (Mock.Error "No rows updated") eq_refl)
    as (Hthrow & _ & _ & _ & Hserver).
  - vm_compute. reflexivity.
  - reflexivity.
  - split; [exact Hthrow|]. rewrite Hserver. vm_compute. reflexivity.
Defined.

(** The first update of the test: [name] and [age] are sent, [id] is not. *)
Lemma updateMany_payload_without_id_witness :
  exists (record values : Row),
    In record two_updates
    /\ UpdateEqSelectSingle (B := Mock.MockPostgrestQueryBuilder) "users"
         {[ "name" := SStr "John Updated"; "age" := SNum 31 ]} "id" (SStr "1")
       = UpdateEqSelectSingle "users" values "id" (prop record "id")
    /\ values !! "id" = None
    /\ (forall column, column <> "id" -> values !! column = record !! column).
Proof.
  apply (updateMany_payload_without_id (C := Runtime.mock) "users" two_updates
           Fixture.users
           (trace (snd (BaseRepository.updateMany (C := Runtime.mock) "users"
                          two_updates Fixture.users)))
           (UpdateEqSelectSingle "users"
              {[ "name" := SStr "John Updated"; "age" := SNum 31 ]} "id" (SStr "1"))
           eq_refl).
  vm_compute. left. reflexivity.
Defined.

(** ** The data query of [findPaginated] *)

Lemma slice_length {A} (l : list A) (start end_ : Z) :
  start <= end_ -> Z.of_nat (length (slice l start end_)) <= end_ - start.
Proof.
  intros Hle. unfold slice. rewrite length_take.
  set (len := Z.of_nat (length l)).
  assert (0 <= len) by (unfold len; lia).
  destruct (start <? 0) eqn:Hs; destruct (end_ <? 0) eqn:He;
    try apply Z.ltb_lt in Hs; try apply Z.ltb_ge in Hs;
    try apply Z.ltb_lt in He; try apply Z.ltb_ge in He; lia.
Qed.

Section PageOnMock.

Variable sort : (Row -> Row -> Z) -> list Row -> list Row.
Variable lt : Scalar -> Scalar -> bool.

Lemma window_conditions conditions : forall b,
  window (fold_left (fun q p => Mock.push_filter p q) conditions b) = window b.
Proof.
  induction conditions as [|p conditions IH]; intros b; [reflexivity|].
  simpl. rewrite IH. reflexivity.
Qed.

Lemma window_applyFilter filter b :
  adds_conditions filter ->
  window (BaseRepository.applyFilter (C := Mock.client sort lt) filter b) = window b.
Proof.
  destruct filter as [f|]; simpl; [|reflexivity].
  intros H. destruct (H b) as [conditions ->]. apply window_conditions.
Qed.

Lemma window_orderAll orders : forall b,
  window (BaseRepository.orderAll (C := Mock.client sort lt) orders b) = window b.
Proof.
  unfold BaseRepository.orderAll.
  induction orders as [|o orders IH]; intros b; [reflexivity|].
  simpl. rewrite IH. reflexivity.
Qed.

Lemma window_applyOrderBy orderBy b :
  window (BaseRepository.applyOrderBy (C := Mock.client sort lt) b orderBy) = window b.
Proof. destruct orderBy; simpl; [apply window_orderAll | reflexivity]. Qed.

(** A builder with a range and no [head] answers with the rows of that
    range. *)
Lemma executeQuery_window b s start end_ :
  window b = (Some start, Some end_, false) ->
  exists rows,
    Mock.executeQuery sort lt b s
    = {| data := DRows (slice rows start (end_ + 1)); error := None;
         count := if Mock.isCountQuery b then Some (Z.of_nat (length rows)) else None |}.
Proof.
  unfold window. intros H. injection H as Hs He Hh.
  unfold Mock.executeQuery. rewrite Hs, He, Hh. eexists. reflexivity.
Qed.

(** On the mock the page holds no more than [pageSize] rows. *)
Lemma page_on_mock table (options : BaseRepository.FindPaginatedOptions (C := Mock.client sort lt))
    (w : World (C := Mock.client sort lt)) result :
  0 <= BaseRepository.pageSize options ->
  adds_conditions (BaseRepository.pg_filter options) ->
  fst (BaseRepository.findPaginated (C := Mock.client sort lt) table options w)
  = Return result ->
  exists rows,
    items result = DRows rows
    /\ Z.of_nat (length rows) <= BaseRepository.pageSize options.
Proof.
  intros Hsize Hfilter. rewrite findPaginated_run. cbv zeta.
  destruct (error (reply (count_request table options) w)); [discriminate|].
  set (w1 := after (count_request table options) w).
  assert (Hrows : exists rows n,
             reply (page_request table options) w1
             = {| data :=
                    DRows (slice rows
                             ((BaseRepository.page options - 1) * BaseRepository.pageSize options)
                             ((BaseRepository.page options - 1) * BaseRepository.pageSize options
                              + BaseRepository.pageSize options - 1 + 1));
                  error := None; count := n |}).
  { unfold reply, page_request, data_request. cbn [Client.answer Mock.client Mock.answer fst].
    match goal with
    | |- context [Mock.executeQuery sort lt ?b ?s] =>
        destruct (executeQuery_window b s
                    ((BaseRepository.page options - 1) * BaseRepository.pageSize options)
                    ((BaseRepository.page options - 1) * BaseRepository.pageSize options
                     + BaseRepository.pageSize options - 1)) as [rows ->]
    end.
    - rewrite window_applyOrderBy, window_applyFilter by exact Hfilter. reflexivity.
    - eexists _, _. reflexivity. }
  destruct Hrows as (rows & n & ->).
  unfold settled. simpl. intros H. injection H as <-. simpl.
  eexists. split; [reflexivity|].
  etransitivity; [apply slice_length; lia | lia].
Qed.

End PageOnMock.

(** On the three users: with [pageSize = -1] the query is
    [range(0, -2)] and the mock returns two rows; with the filter
    [(query) => query.range(0, 2)] and [pageSize = 1] it returns all
    three.  Either way more than [pageSize]. *)
Lemma findPaginated_items_exceed_page_size :
  (items_of (fst (BaseRepository.findPaginated (C := Runtime.mock) "users"
                    page_of_negative_size Fixture.users))
   = Some (DRows [Fixture.john; Fixture.jane])
   /\ ~ Z.of_nat (length [Fixture.john; Fixture.jane])
         <= BaseRepository.pageSize page_of_negative_size)
  /\ (items_of (fst (BaseRepository.findPaginated (C := Runtime.mock) "users"
                       page_with_ranging_filter Fixture.users))
      = Some (DRows [Fixture.john; Fixture.jane; Fixture.bob])
      /\ ~ Z.of_nat (length [Fixture.john; Fixture.jane; Fixture.bob])
            <= BaseRepository.pageSize page_with_ranging_filter).
Proof.
  split; (split; [vm_compute; reflexivity | intros H; vm_compute in H; apply H; reflexivity]).
Qed.

(** C3, amended.  For an integer [page] and an integer [pageSize] whose
    offset arithmetic stays within the safe integers and yields no
    negative zero ([exact_offsets]), and once the count query has come
    back without an error, [findPaginated] sends two queries: the filtered
    head count, and as its data query
    [select().range(offset, offset + pageSize - 1)] with
    [offset = (page - 1) * pageSize], handed to the filter function if there
    is one, and then ordered by each entry of [orderBy] in turn, ascending
    where the entry does not say.  And for any integer [page], an integer
    [pageSize] of at least 0 and a filter that only adds conditions, the
    mock client answers the data query with at most [pageSize] rows. *)
Theorem findPaginated_data_range :
  (forall (C : SupabaseClient) (tableName : string)
          (options : BaseRepository.FindPaginatedOptions) (w : World)
          (evs : list (Event Builder)),
     let offset := (BaseRepository.page options - 1) * BaseRepository.pageSize options in
     let filtered := fun query : Builder =>
       match BaseRepository.pg_filter options with
       | Some filter => filter query
       | None => query
       end in
     let orders :=
       match BaseRepository.pg_orderBy options with
       | Some (OrderArray l) => l
       | Some (OneOrder o) => [o]
       | None => []
       end in
     let direction := fun o : OrderBy =>
       match ascending o with
       | Some asc => asc
       | None => true
       end in
     exact_offsets (BaseRepository.page options) (BaseRepository.pageSize options) ->
     error (reply (count_request tableName options) w) = None ->
     trace (snd (BaseRepository.findPaginated tableName options w)) = trace w ++ evs ->
     requests evs
     = [ Await
           (filtered
              (Client.select tableName (Some "*")
                 (Some {| opt_count := Some "exact"; opt_head := true |})));
         Await
           (fold_left (fun query o => Client.order (column o) (direction o) query)
              orders
              (filtered
                 (Client.range offset (offset + BaseRepository.pageSize options - 1)
                    (Client.select tableName None None)))) ])
  /\ (forall sort lt (tableName : string)
             (options : BaseRepository.FindPaginatedOptions (C := Mock.client sort lt))
             (w : World (C := Mock.client sort lt)) (result : PaginatedResult),
        0 <= BaseRepository.pageSize options ->
        adds_conditions (BaseRepository.pg_filter options) ->
        fst (BaseRepository.findPaginated (C := Mock.client sort lt) tableName options w)
        = Return result ->
        exists rows,
          items result = DRows rows
          /\ Z.of_nat (length rows) <= BaseRepository.pageSize options).
Proof.
  split.
  - intros C tableName options w evs offset filtered orders direction _ Hok.
    rewrite findPaginated_run. cbv zeta.
    rewrite Hok. simpl. rewrite <- app_assoc. intros H. apply app_inv_head in H.
    subst evs filtered orders direction.
    unfold count_request, page_request, head_count_request, data_request,
      BaseRepository.applyFilter, BaseRepository.applyOrderBy,
      BaseRepository.orderAll, orderByArray.
    destruct (BaseRepository.pg_filter options);
      destruct (BaseRepository.pg_orderBy options) as [[o|l]|]; reflexivity.
  - intros sort lt tableName options w result. apply page_on_mock.
Qed.

(** The first page of two: the data query is [range(0, 1)] ordered by
    name, and two rows come back. *)
Lemma findPaginated_data_range_witness :
  requests (trace (snd (BaseRepository.findPaginated (C := Runtime.mock) "users"
                          first_page_of_two Fixture.users)))
  = [ count_request (C := Runtime.mock) "users" first_page_of_two;
      Await (Mock.order "name" true
               (Mock.range 0 1 (Mock.select None None (Mock.from "users")))) ]
  /\ exists rows,
       items first_page_result = DRows rows /\ Z.of_nat (length rows) <= 2.
Proof.
  split.
  - pose proof (proj1 findPaginated_data_range Runtime.mock "users" first_page_of_two
                  Fixture.users
                  (trace (snd (BaseRepository.findPaginated (C := Runtime.mock) "users"
                                 first_page_of_two Fixture.users)))
                  ltac:(unfold exact_offsets, safe_integer; simpl; lia)
                  ltac:(vm_compute; reflexivity) ltac:(vm_compute; reflexivity)) as H.
    vm_compute in H. vm_compute. exact H.
  - apply (proj2 findPaginated_data_range Runtime.sort Runtime.lt "users"
             first_page_of_two Fixture.users first_page_result).
    + vm_compute. discriminate.
    + exact I.
    + vm_compute. reflexivity.
Defined.

(** * Further properties *)

(** ** How many requests a call makes *)

Section RequestCounts.

Context `{C : SupabaseClient}.
Variable tableName : string.

Lemma one_trip_events {A} (m : Promise A) (f : A -> Returned) r (value : A) w evs :
  m w = (settled (reply r w) value, after r w) ->
  trace (snd (returning f m w)) = trace w ++ evs ->
  evs = [Issued r; Settled (reply r w)].
Proof.
  intros Hrun Htrace. rewrite returning_run, Hrun in Htrace. simpl in Htrace.
  apply app_inv_head in Htrace. congruence.
Qed.

(** The round trips of [updateMany]. *)
Lemma updateMany_round_trips (records : list Row) (w : World)
    (evs : list (Event Builder)) :
  trace (snd (BaseRepository.updateMany tableName records w)) = trace w ++ evs ->
  in_flight evs = 0
  /\ requests evs
     = take (length (requests evs)) (map (update_request tableName) records)
  /\ (length (requests evs) <= length records)%nat
  /\ length (responses evs) = length (requests evs)
  /\ (Forall (fun resp => error resp = None) (responses evs) ->
      length (requests evs) = length records)
  /\ (forall (k : nat) (resp : Response),
        responses evs !! k = Some resp -> error resp <> None ->
        length (requests evs) = S k).
Proof.
  intros Htrace. apply updateMany_trace in Htrace. subst evs.
  rewrite requests_exchanges, responses_exchanges, !length_map.
  pose proof (serve_requests (map (update_request tableName) records) (server w)) as Hsent.
  split; [apply in_flight_exchanges|].
  split; [exact Hsent|].
  split.
  { apply (f_equal (@length _)) in Hsent.
    rewrite length_map, length_take, length_map in Hsent. lia. }
  split; [reflexivity|].
  split.
  - intros Hok. apply (serve_all_ok _ _ []) in Hok as [Hlen _].
    rewrite Hlen, length_map. reflexivity.
  - intros k resp Hk Herr. destruct (error resp) as [e|] eqn:E; [|congruence].
    apply (serve_error _ _ [] k resp e Hk E).
Qed.

(** X1.  The queries a method of the repository itself awaits, for each of
    its twelve public methods.  None leaves a query unanswered.  [get],
    [find], [create], [createMany], [update], [delete], [deleteMany],
    [upsert], [exists] and [count] await exactly one.  [findPaginated]
    awaits two when its count query comes back without an error and stops
    after the first when it does not.  [updateMany] awaits the updates of
    its records in their order, one each, up to and including the first
    that is answered with an error: as many as there are records when no
    answer has an error, and [k + 1] when the answer number [k], counted
    from 0, has one. *)
Theorem one_request_per_call :
  (forall (op : Operation) (w : World) (evs : list (Event Builder)),
     trace (snd (perform tableName op w)) = trace w ++ evs ->
     in_flight evs = 0
     /\ length (requests evs)
        = match op with
          | FindPaginated options =>
              match error (reply (count_request tableName options) w) with
              | Some _ => 1%nat
              | None => 2%nat
              end
          | _ => 1%nat
          end)
  /\ (forall (records : list Row) (w : World) (evs : list (Event Builder)),
        trace (snd (BaseRepository.updateMany tableName records w)) = trace w ++ evs ->
        in_flight evs = 0
        /\ requests evs
           = take (length (requests evs)) (map (update_request tableName) records)
        /\ (length (requests evs) <= length records)%nat
        /\ length (responses evs) = length (requests evs)
        /\ (Forall (fun resp => error resp = None) (responses evs) ->
            length (requests evs) = length records)
        /\ (forall (k : nat) (resp : Response),
              responses evs !! k = Some resp -> error resp <> None ->
              length (requests evs) = S k)).
Proof.
  split; [|apply updateMany_round_trips].
  intros op w evs. destruct op; cbn [perform]; intros Htrace.
  3: { rewrite returning_run, findPaginated_run in Htrace. cbv zeta in Htrace.
       destruct (error (reply (count_request tableName options) w)); simpl in Htrace.
       - apply app_inv_head in Htrace. subst evs. split; reflexivity.
       - rewrite <- app_assoc in Htrace. apply app_inv_head in Htrace. subst evs.
         split; reflexivity. }
  all: match type of Htrace with
       | context [returning _ ?m ?w] =>
           let H := fresh in
           first
             [ pose proof (one_trip_events _ _ _ _ _ _ (get_run _ _ _) Htrace) as H
             | pose proof (one_trip_events _ _ _ _ _ _ (find_run _ _ _) Htrace) as H
             | pose proof (one_trip_events _ _ _ _ _ _ (create_run _ _ _) Htrace) as H
             | pose proof (one_trip_events _ _ _ _ _ _ (createMany_run _ _ _) Htrace) as H
             | pose proof (one_trip_events _ _ _ _ _ _ (update_run _ _ _ _) Htrace) as H
             | pose proof (one_trip_events _ _ _ _ _ _ (delete_run _ _ _) Htrace) as H
             | pose proof (one_trip_events _ _ _ _ _ _ (deleteMany_run _ _ _) Htrace) as H
             | pose proof (one_trip_events _ _ _ _ _ _ (upsert_run _ _ _ _) Htrace) as H
             | pose proof (one_trip_events _ _ _ _ _ _ (exists_run _ _ _) Htrace) as H
             | pose proof (one_trip_events _ _ _ _ _ _ (count_run _ _ _) Htrace) as H ];
           rewrite H; split; reflexivity
       end.
Qed.

(** X2.  The total that [findPaginated] reports is what [count] returns
    for the same filter on the same state of the client: whenever
    [findPaginated] returns, [count(filter)] returns its [totalCount]. *)
Theorem findPaginated_total_is_count (options : BaseRepository.FindPaginatedOptions)
    (w : World) (result : PaginatedResult) :
  fst (BaseRepository.findPaginated tableName options w) = Return result ->
  fst (BaseRepository.count tableName (BaseRepository.pg_filter options) w)
  = Return (Pagination.totalCount (pagination result)).
Proof.
  rewrite findPaginated_run, count_run. cbv zeta.
  change (head_count_request tableName "*" (BaseRepository.pg_filter options))
    with (count_request tableName options).
  unfold settled.
  destruct (error (reply (count_request tableName options) w)); [discriminate|].
  destruct (error (reply (page_request tableName options)
                     (after (count_request tableName options) w))); [discriminate|].
  simpl. intros H. injection H as <-. reflexivity.
Qed.

(** The loop of [updateMany] over two lists in a row. *)
Lemma updateMany_loop_app (a b : list Row) : forall results w,
  BaseRepository.updateMany_loop tableName (a ++ b) results w
  = match BaseRepository.updateMany_loop tableName a results w with
    | (Return r, w1) => BaseRepository.updateMany_loop tableName b r w1
    | (Throw e, w1) => (Throw e, w1)
    end.
Proof.
  induction a as [|record a IH]; intros results w; [reflexivity|].
  cbn [app BaseRepository.updateMany_loop]. unfold bind.
  destruct (BaseRepository.update tableName (prop record "id")
              (base.delete "id" record) w) as [[row|e] w1]; [apply IH | reflexivity].
Qed.

(** Results gathered before the loop starts stay in front. *)
Lemma updateMany_loop_results (b : list Row) : forall results w,
  BaseRepository.updateMany_loop tableName b results w
  = match BaseRepository.updateMany_loop tableName b [] w with
    | (Return r, w1) => (Return (results ++ r), w1)
    | (Throw e, w1) => (Throw e, w1)
    end.
Proof.
  induction b as [|record b IH]; intros results w.
  - simpl. unfold ret. rewrite app_nil_r. reflexivity.
  - cbn [BaseRepository.updateMany_loop]. unfold bind.
    destruct (BaseRepository.update tableName (prop record "id")
                (base.delete "id" record) w) as [[row|e] w1]; [|reflexivity].
    rewrite (IH (results ++ [row])), (IH ([] ++ [row])).
    destruct (BaseRepository.updateMany_loop tableName b [] w1) as [[r|e] w2];
      [|reflexivity].
    simpl. rewrite <- app_assoc. reflexivity.
Qed.

(** X3.  [updateMany] of two lists in a row is [updateMany] of the first
    followed, if that succeeds, by [updateMany] of the second on the state
    the first left, the rows concatenated; a failure in the first means the
    second is never started. *)
Theorem updateMany_app (a b : list Row) (w : World) :
  BaseRepository.updateMany tableName (a ++ b) w
  = match BaseRepository.updateMany tableName a w with
    | (Return ra, w1) =>
        match BaseRepository.updateMany tableName b w1 with
        | (Return rb, w2) => (Return (ra ++ rb), w2)
        | (Throw e, w2) => (Throw e, w2)
        end
    | (Throw e, w1) => (Throw e, w1)
    end.
Proof.
  unfold BaseRepository.updateMany. rewrite updateMany_loop_app.
  destruct (BaseRepository.updateMany_loop tableName a [] w) as [[ra|e] w1];
    [|reflexivity].
  apply updateMany_loop_results.
Qed.

End RequestCounts.

(** ** Queries on the mock *)

Lemma filter_filter_and {A} (p q : A -> bool) (l : list A) :
  List.filter q (List.filter p l) = List.filter (fun x => p x && q x) l.
Proof.
  induction l as [|x l IH]; simpl; [reflexivity|].
  destruct (p x); simpl; [destruct (q x)|]; rewrite IH; reflexivity.
Qed.

(** Conditions applied one after the other keep the rows that pass all. *)
Lemma fold_filters (conditions : list (Row -> bool)) : forall rows,
  fold_left (fun rows p => List.filter p rows) conditions rows
  = List.filter (satisfies conditions) rows.
Proof.
  induction conditions as [|p conditions IH]; intros rows; simpl.
  - induction rows as [|x rows IHr]; simpl; [reflexivity|]. f_equal. exact IHr.
  - rewrite IH. apply filter_filter_and.
Qed.

Lemma filter_ext_in {A} (p q : A -> bool) (l : list A) :
  (forall x, In x l -> p x = q x) -> List.filter p l = List.filter q l.
Proof.
  induction l as [|x l IH]; intros H; simpl; [reflexivity|].
  rewrite (H x) by (left; reflexivity).
  rewrite IH by (intros y Hy; apply H; right; exact Hy). reflexivity.
Qed.

Lemma filter_all {A} (p : A -> bool) (l : list A) :
  (forall x, In x l -> p x = true) -> List.filter p l = l.
Proof.
  induction l as [|x l IH]; intros H; simpl; [reflexivity|].
  rewrite (H x) by (left; reflexivity). f_equal. apply IH.
  intros y Hy. apply H. right. exact Hy.
Qed.

Lemma slice_take_drop {A} (l : list A) (start end_ : Z) :
  0 <= start -> start <= end_ ->
  slice l start end_ = take (Z.to_nat (end_ - start)) (drop (Z.to_nat start) l).
Proof.
  intros Hs He. unfold slice.
  assert (Hs' : (start <? 0) = false) by (apply Z.ltb_ge; lia).
  assert (He' : (end_ <? 0) = false) by (apply Z.ltb_ge; lia).
  rewrite Hs', He'.
  destruct (Z_le_gt_dec start (Z.of_nat (length l))) as [Hin|Hout].
  - rewrite (Z.min_l start) by lia.
    destruct (Z_le_gt_dec end_ (Z.of_nat (length l))) as [Hein|Heout].
    + rewrite (Z.min_l end_) by lia. reflexivity.
    + rewrite (Z.min_r end_) by lia.
      rewrite !take_ge; [reflexivity | rewrite length_drop; lia | rewrite length_drop; lia].
  - rewrite (Z.min_r start), (Z.min_r end_) by lia.
    rewrite Z.sub_diag. simpl.
    rewrite (drop_ge l (Z.to_nat start)) by lia. rewrite take_nil. reflexivity.
Qed.

Lemma pushes_fields (conditions : list (Row -> bool)) : forall b,
  pushes conditions b
  = {| Mock.tableName := Mock.tableName b;
       Mock.filters := Mock.filters b ++ conditions;
       Mock.orderBy := Mock.orderBy b;
       Mock.selectFields := Mock.selectFields b;
       Mock.rangeStart := Mock.rangeStart b;
       Mock.rangeEnd := Mock.rangeEnd b;
       Mock.isCountQuery := Mock.isCountQuery b;
       Mock.isHeadOnly := Mock.isHeadOnly b |}.
Proof.
  unfold pushes.
  induction conditions as [|p conditions IH]; intros b; simpl.
  - rewrite app_nil_r. destruct b; reflexivity.
  - rewrite IH. simpl. rewrite <- app_assoc. reflexivity.
Qed.

Section QueriesOnMock.

Variable sort : (Row -> Row -> Z) -> list Row -> list Row.
Variable lt : Scalar -> Scalar -> bool.

Lemma applyFilter_fields filter conditions (b : Mock.MockPostgrestQueryBuilder) :
  adds filter conditions ->
  BaseRepository.applyFilter (C := Mock.client sort lt) filter b
  = {| Mock.tableName := Mock.tableName b;
       Mock.filters := Mock.filters b ++ conditions;
       Mock.orderBy := Mock.orderBy b;
       Mock.selectFields := Mock.selectFields b;
       Mock.rangeStart := Mock.rangeStart b;
       Mock.rangeEnd := Mock.rangeEnd b;
       Mock.isCountQuery := Mock.isCountQuery b;
       Mock.isHeadOnly := Mock.isHeadOnly b |}.
Proof.
  destruct filter as [f|]; simpl.
  - intros H. rewrite H. apply pushes_fields.
  - intros ->. rewrite app_nil_r. destruct b; reflexivity.
Qed.

Lemma orderAll_fields (orders : list OrderBy) : forall (b : Mock.MockPostgrestQueryBuilder),
  BaseRepository.orderAll (C := Mock.client sort lt) orders b
  = {| Mock.tableName := Mock.tableName b;
       Mock.filters := Mock.filters b;
       Mock.orderBy :=
         Mock.orderBy b ++ map (fun o => (column o, ascending o ?? true)) orders;
       Mock.selectFields := Mock.selectFields b;
       Mock.rangeStart := Mock.rangeStart b;
       Mock.rangeEnd := Mock.rangeEnd b;
       Mock.isCountQuery := Mock.isCountQuery b;
       Mock.isHeadOnly := Mock.isHeadOnly b |}.
Proof.
  unfold BaseRepository.orderAll.
  induction orders as [|o orders IH]; intros b; simpl.
  - rewrite app_nil_r. destruct b; reflexivity.
  - rewrite IH. simpl. rewrite <- app_assoc. reflexivity.
Qed.

Lemma applyOrderBy_fields orderBy (b : Mock.MockPostgrestQueryBuilder) :
  BaseRepository.applyOrderBy (C := Mock.client sort lt) b orderBy
  = {| Mock.tableName := Mock.tableName b;
       Mock.filters := Mock.filters b;
       Mock.orderBy := Mock.orderBy b ++ order_pairs orderBy;
       Mock.selectFields := Mock.selectFields b;
       Mock.rangeStart := Mock.rangeStart b;
       Mock.rangeEnd := Mock.rangeEnd b;
       Mock.isCountQuery := Mock.isCountQuery b;
       Mock.isHeadOnly := Mock.isHeadOnly b |}.
Proof.
  destruct orderBy as [ob|]; simpl.
  - apply orderAll_fields.
  - rewrite app_nil_r. destruct b; reflexivity.
Qed.

Lemma find_on_mock table (options : BaseRepository.FindOptions (C := Mock.client sort lt))
    conditions (w : World (C := Mock.client sort lt)) :
  adds (BaseRepository.opt_filter options) conditions ->
  BaseRepository.find (C := Mock.client sort lt) table options w
  = (Return (DRows (selected sort lt table conditions
                      (order_pairs (BaseRepository.opt_orderBy options)) (server w))),
     after (find_request table options) w)
  /\ server (after (find_request table options) w) = server w.
Proof.
  intros Hadds. rewrite find_run. unfold settled, reply, after, find_request.
  cbn [Client.answer Mock.client Mock.answer fst snd server].
  rewrite applyOrderBy_fields, (applyFilter_fields _ conditions) by exact Hadds.
  unfold Mock.executeQuery. cbn. rewrite fold_filters.
  unfold selected. split; [|reflexivity].
  destruct (order_pairs (BaseRepository.opt_orderBy options)); reflexivity.
Qed.

Lemma head_count_on_mock table columns
    (filter : option (BaseRepository.FilterFunction (C := Mock.client sort lt)))
    conditions (w : World (C := Mock.client sort lt)) :
  adds filter conditions ->
  reply (C := Mock.client sort lt) (head_count_request table columns filter) w
  = {| data := DNull; error := None;
       count := Some (Z.of_nat (length (List.filter (satisfies conditions)
                                          (Mock.tableData table (server w))))) |}
  /\ server (after (head_count_request table columns filter) w) = server w.
Proof.
  intros Hadds. unfold reply, after, head_count_request.
  cbn [Client.answer Mock.client Mock.answer fst snd server].
  rewrite (applyFilter_fields _ conditions) by exact Hadds.
  unfold Mock.executeQuery. cbn. rewrite fold_filters. split; reflexivity.
Qed.

End QueriesOnMock.


Section ReadsOnMock.

Variable sort : (Row -> Row -> Z) -> list Row -> list Row.
Variable lt : Scalar -> Scalar -> bool.
Variable tableName : string.


(** X5.  On the mock client [count] and [exists] agree with [find] for a
    filter function that does nothing but add conditions to the query it
    is given (calls of [eq], [neq], [gt], [gte], [lt], [lte], [ilike],
    [not] and [in]; no [range], no [order], no write): [count(filter)] is
    the number of rows [find({ filter })] returns, and [exists(filter)] is
    true exactly when that list is not empty.  [count()] without a filter
    is the size of the table. *)
Theorem count_is_length_of_find (f : BaseRepository.FilterFunction (C := Mock.client sort lt))
    (conditions : list (Row -> bool)) (w : World (C := Mock.client sort lt)) :
  (forall b, f b = pushes conditions b) ->
  exists rows,
    fst (BaseRepository.find (C := Mock.client sort lt) tableName
           {| BaseRepository.opt_filter := Some f; BaseRepository.opt_orderBy := None |} w)
    = Return (DRows rows)
    /\ fst (BaseRepository.count (C := Mock.client sort lt) tableName (Some f) w)
       = Return (Z.of_nat (length rows))
    /\ fst (BaseRepository.exists_ (C := Mock.client sort lt) tableName f w)
       = Return (match rows with [] => false | _ => true end)
    /\ fst (BaseRepository.count (C := Mock.client sort lt) tableName None w)
       = Return (Z.of_nat (length (Mock.tableData tableName (server w)))).
Proof.
  intros Hadds.
  destruct (find_on_mock sort lt tableName
              {| BaseRepository.opt_filter := Some f; BaseRepository.opt_orderBy := None |}
              conditions w Hadds) as [Hfind _].
  destruct (head_count_on_mock sort lt tableName "*" (Some f) conditions w Hadds)
    as [Hcount _].
  destruct (head_count_on_mock sort lt tableName "id" (Some f) conditions w Hadds)
    as [Hexists _].
  destruct (head_count_on_mock sort lt tableName "*" None [] w eq_refl) as [Hall _].
  eexists. rewrite Hfind, count_run, exists_run, count_run.
  cbn [fst]. rewrite Hcount, Hexists, Hall. unfold settled. cbn.
  split; [reflexivity|]. split; [reflexivity|]. split.
  - destruct (List.filter (satisfies conditions) (Mock.tableData tableName (server w)));
      reflexivity.
  - rewrite filter_all by reflexivity. reflexivity.
Qed.

(** What [findPaginated] returns on the mock, spelled out. *)
Lemma findPaginated_on_mock
    (options : BaseRepository.FindPaginatedOptions (C := Mock.client sort lt))
    (conditions : list (Row -> bool)) (w : World (C := Mock.client sort lt)) :
  adds (BaseRepository.pg_filter options) conditions ->
  1 <= BaseRepository.page options ->
  0 <= BaseRepository.pageSize options ->
  fst (BaseRepository.findPaginated (C := Mock.client sort lt) tableName options w)
  = Return
      (page_result options
         (Z.of_nat (length (List.filter (satisfies conditions)
                              (Mock.tableData tableName (server w)))))
         (DRows (take (Z.to_nat (BaseRepository.pageSize options))
                   (drop (Z.to_nat ((BaseRepository.page options - 1)
                                    * BaseRepository.pageSize options))
                      (selected sort lt tableName conditions
                         (order_pairs (BaseRepository.pg_orderBy options)) (server w)))))).
Proof.
  intros Hadds Hpage Hsize.
  destruct (head_count_on_mock sort lt tableName "*" (BaseRepository.pg_filter options)
              conditions w Hadds) as [Hcount Hsame].
  rewrite findPaginated_run. cbv zeta.
  unfold count_request. rewrite Hcount. cbn [error count].
  set (w1 := after (head_count_request tableName "*" (BaseRepository.pg_filter options)) w)
    in *.
  assert (Hpageq :
    reply (C := Mock.client sort lt) (page_request tableName options) w1
    = {| data :=
           DRows (take (Z.to_nat (BaseRepository.pageSize options))
                    (drop (Z.to_nat ((BaseRepository.page options - 1)
                                     * BaseRepository.pageSize options))
                       (selected sort lt tableName conditions
                          (order_pairs (BaseRepository.pg_orderBy options)) (server w))));
         error := None; count := None |}).
  { unfold reply. rewrite Hsame. unfold page_request, data_request.
    cbn [Client.answer Mock.client Mock.answer fst].
    rewrite applyOrderBy_fields, (applyFilter_fields sort lt _ conditions) by exact Hadds.
    unfold Mock.executeQuery. cbn. rewrite fold_filters.
    rewrite slice_take_drop by nia.
    replace ((BaseRepository.page options - 1) * BaseRepository.pageSize options
             + BaseRepository.pageSize options - 1 + 1
             - (BaseRepository.page options - 1) * BaseRepository.pageSize options)
      with (BaseRepository.pageSize options) by lia.
    unfold selected.
    destruct (order_pairs (BaseRepository.pg_orderBy options)); reflexivity. }
  rewrite Hpageq. reflexivity.
Qed.

(** X6.  On the mock client a page is a window on what [find] returns for
    the same filter and ordering, when the filter function does nothing
    but add conditions (or there is none): for an integer [page >= 1] and
    an integer [pageSize >= 0] the items are the [pageSize] rows after the
    first [(page - 1) * pageSize] of that list (fewer at its end, none
    beyond it), and [totalCount] is the number of rows that pass the
    conditions, whatever the page. *)
Theorem page_is_window_on_find
    (options : BaseRepository.FindPaginatedOptions (C := Mock.client sort lt))
    (conditions : list (Row -> bool)) (w : World (C := Mock.client sort lt)) :
  adds (BaseRepository.pg_filter options) conditions ->
  1 <= BaseRepository.page options ->
  0 <= BaseRepository.pageSize options ->
  exists all result,
    fst (BaseRepository.find (C := Mock.client sort lt) tableName
           {| BaseRepository.opt_filter := BaseRepository.pg_filter options;
              BaseRepository.opt_orderBy := BaseRepository.pg_orderBy options |} w)
    = Return (DRows all)
    /\ fst (BaseRepository.findPaginated (C := Mock.client sort lt) tableName options w)
       = Return result
    /\ items result
       = DRows (take (Z.to_nat (BaseRepository.pageSize options))
                  (drop (Z.to_nat ((BaseRepository.page options - 1)
                                   * BaseRepository.pageSize options)) all))
    /\ Pagination.totalCount (pagination result)
       = Z.of_nat (length (List.filter (fun row => forallb (fun p => p row) conditions)
                             (Mock.tableData tableName (server w)))).
Proof.
  intros Hadds Hpage Hsize.
  destruct (find_on_mock sort lt tableName
              {| BaseRepository.opt_filter := BaseRepository.pg_filter options;
                 BaseRepository.opt_orderBy := BaseRepository.pg_orderBy options |}
              conditions w Hadds) as [Hfind _].
  eexists _, _. rewrite Hfind, (findPaginated_on_mock options conditions w) by assumption.
  repeat split.
Qed.

(** X19.  On the mock client, with a sort that keeps the length, a filter
    function that does nothing but add conditions (or none) and an integer
    page size above 0, the page count fits the pages: for an integer
    [p >= 1], page [p] holds [min(pageSize, totalCount - (p - 1) * pageSize)]
    rows, none when that is negative, so the pages up to [totalPages] have
    rows and the pages after it have none. *)
Theorem pages_up_to_totalPages_have_rows
    (options : BaseRepository.FindPaginatedOptions (C := Mock.client sort lt))
    (conditions : list (Row -> bool)) (w : World (C := Mock.client sort lt)) :
  (forall cmp rows, length (sort cmp rows) = length rows) ->
  adds (BaseRepository.pg_filter options) conditions ->
  1 <= BaseRepository.page options ->
  0 < BaseRepository.pageSize options ->
  exists result rows totalPages,
    fst (BaseRepository.findPaginated (C := Mock.client sort lt) tableName options w)
    = Return result
    /\ items result = DRows rows
    /\ Pagination.totalPages (pagination result) = Num (inject_Z totalPages)
    /\ Z.of_nat (length rows)
       = Z.max 0
           (Z.min (BaseRepository.pageSize options)
              (Pagination.totalCount (pagination result)
               - (BaseRepository.page options - 1) * BaseRepository.pageSize options))
    /\ (rows <> [] <-> BaseRepository.page options <= totalPages).
Proof.
  intros Hsort Hadds Hpage Hsize.
  set (n := Z.of_nat (length (List.filter (satisfies conditions)
                                (Mock.tableData tableName (server w))))).
  destruct (Math_ceil_div n (BaseRepository.pageSize options)) as [Hceil Hof]; [lia|].
  apply ceiling_of_pos in Hof; [|exact Hsize].
  eexists _, _, _.
  rewrite (findPaginated_on_mock options conditions w) by (assumption || lia).
  fold n. split; [reflexivity|]. split; [reflexivity|]. split; [exact Hceil|].
  cbn [pagination page_result Pagination.totalCount].
  set (all := selected sort lt tableName conditions
                (order_pairs (BaseRepository.pg_orderBy options)) (server w)).
  assert (Hall : Z.of_nat (length all) = n).
  { unfold all, selected, n.
    destruct (order_pairs (BaseRepository.pg_orderBy options));
      [reflexivity | rewrite Hsort; reflexivity]. }
  set (rows := take _ (drop _ all)).
  assert (Hlen : Z.of_nat (length rows)
                 = Z.max 0
                     (Z.min (BaseRepository.pageSize options)
                        (n - (BaseRepository.page options - 1)
                             * BaseRepository.pageSize options))).
  { unfold rows. rewrite length_take, length_drop. nia. }
  split; [exact Hlen|].
  split.
  - intros Hne.
    assert (0 < Z.of_nat (length rows)) by (destruct rows; [congruence | simpl; lia]).
    nia.
  - intros Hle. intros Hnil. rewrite Hnil in Hlen. simpl in Hlen. nia.
Qed.

Lemma get_on_mock (id : Scalar) (w : World (C := Mock.client sort lt)) :
  fst (BaseRepository.get (C := Mock.client sort lt) tableName id w)
  = match List.filter (has_id id) (Mock.tableData tableName (server w)) with
    | [] => Return DNull
    | [row] => Return (DRow row)
    | _ => Throw (Mock.Error "Multiple rows returned")
    end.
Proof.
  rewrite get_run. unfold settled, reply, get_request.
  cbn [Client.answer Mock.client Mock.answer fst Client.eq Client.select].
  unfold Mock.single, Mock.executeQuery. cbn.
  fold (has_id id).
  destruct (List.filter (has_id id) (Mock.tableData tableName (server w)))
    as [|row [|row' rest]]; reflexivity.
Qed.

(** X7.  On the mock client [get(id)] depends on how many rows of the
    table carry that id: none, and it returns null; one, and it returns
    that row; more, and it throws "Multiple rows returned". *)
Theorem get_by_number_of_matches (id : Scalar) (w : World (C := Mock.client sort lt)) :
  let matching := List.filter (has_id id) (Mock.tableData tableName (server w)) in
  (matching = [] ->
   fst (BaseRepository.get (C := Mock.client sort lt) tableName id w) = Return DNull)
  /\ (forall row, matching = [row] ->
      fst (BaseRepository.get (C := Mock.client sort lt) tableName id w) = Return (DRow row))
  /\ ((2 <= length matching)%nat ->
      fst (BaseRepository.get (C := Mock.client sort lt) tableName id w)
      = Throw (Mock.Error "Multiple rows returned")).
Proof.
  intros matching. rewrite get_on_mock. fold matching.
  split; [intros ->; reflexivity|]. split; [intros row ->; reflexivity|].
  destruct matching as [|row [|row' rest]]; simpl; [lia | lia | reflexivity].
Qed.

End ReadsOnMock.

(** ** Writes on the mock *)

Lemma includes_In (values : list Scalar) (x : Scalar) :
  Mock.includes values x = true <-> In x values.
Proof.
  unfold Mock.includes. rewrite existsb_exists. unfold strict_eq. split.
  - intros (y & Hy & Heq). apply bool_decide_eq_true in Heq. subst. exact Hy.
  - intros H. exists x. split; [exact H | apply bool_decide_eq_true; reflexivity].
Qed.

Lemma tableData_setTableData table rows s :
  Mock.tableData table (Mock.setTableData table rows s) = rows.
Proof. unfold Mock.tableData, Mock.setTableData. simpl. rewrite lookup_insert_eq. reflexivity. Qed.

Lemma tableData_setTableData_ne table other rows s :
  table <> other ->
  Mock.tableData other (Mock.setTableData table rows s) = Mock.tableData other s.
Proof.
  intros Hne. unfold Mock.tableData, Mock.setTableData. simpl.
  rewrite lookup_insert_ne by exact Hne. reflexivity.
Qed.

(** A list with exactly one element passing [p], taken apart at it. *)
Lemma filter_single_split {A} (p : A -> bool) (l : list A) (x : A) :
  List.filter p l = [x] ->
  exists pre post,
    l = pre ++ x :: post
    /\ List.filter p pre = [] /\ List.filter p post = [] /\ p x = true.
Proof.
  induction l as [|y l IH]; simpl; [discriminate|].
  destruct (p y) eqn:Hy.
  - intros H. injection H as -> Hrest. exists [], l. simpl. auto.
  - intros H. destruct (IH H) as (pre & post & -> & Hpre & Hpost & Hx).
    exists (y :: pre), post. simpl. rewrite Hy. auto.
Qed.

Lemma findIndex_first {A} (p : A -> bool) (pre post : list A) (x : A) :
  List.filter p pre = [] -> p x = true ->
  findIndex p (pre ++ x :: post) = Some (length pre).
Proof.
  induction pre as [|y pre IH]; simpl; intros Hpre Hx.
  - rewrite Hx. reflexivity.
  - destruct (p y); [discriminate|]. rewrite IH by assumption. reflexivity.
Qed.

Lemma findIndex_none {A} (p : A -> bool) (l : list A) :
  findIndex p l = None <-> List.filter p l = [].
Proof.
  induction l as [|y l IH]; simpl; [tauto|].
  destruct (p y); [split; discriminate|].
  destruct (findIndex p l); simpl; [|tauto].
  split; [discriminate|]. intros H. apply IH in H. discriminate.
Qed.

(** [findIndex] finds the first element that passes. *)
Lemma findIndex_Some {A} (p : A -> bool) (l : list A) (i : nat) :
  findIndex p l = Some i ->
  exists pre x post,
    l = pre ++ x :: post /\ length pre = i /\ List.filter p pre = [] /\ p x = true.
Proof.
  revert i. induction l as [|y l IH]; simpl; intros i; [discriminate|].
  destruct (p y) eqn:Hy.
  - intros H. injection H as <-. exists [], y, l. auto.
  - destruct (findIndex p l) as [j|]; simpl; [|discriminate].
    intros H. injection H as <-.
    destruct (IH j eq_refl) as (pre & x & post & -> & Hlen & Hpre & Hx).
    exists (y :: pre), x, post. simpl. rewrite Hy. auto.
Qed.

Lemma insert_middle {A} (pre post : list A) (x u : A) :
  <[length pre := u]> (pre ++ x :: post) = pre ++ u :: post.
Proof. induction pre as [|y pre IH]; simpl; [reflexivity|]. f_equal. exact IH. Qed.

Lemma lookup_middle {A} (pre post : list A) (x : A) :
  (pre ++ x :: post) !! length pre = Some x.
Proof. induction pre as [|y pre IH]; simpl; [reflexivity | exact IH]. Qed.

Section WritesOnMock.

Variable sort : (Row -> Row -> Z) -> list Row -> list Row.
Variable lt : Scalar -> Scalar -> bool.
Variable tableName : string.

Lemma deleteMany_on_mock ids (w : World (C := Mock.client sort lt)) :
  fst (BaseRepository.deleteMany (C := Mock.client sort lt) tableName ids w) = Return tt
  /\ server (snd (BaseRepository.deleteMany (C := Mock.client sort lt) tableName ids w))
     = Mock.setTableData tableName
         (List.filter (fun row => negb (Mock.includes ids (prop row "id")))
            (Mock.tableData tableName (server w))) (server w).
Proof. rewrite deleteMany_run. split; reflexivity. Qed.

(** X9.  On the mock client [deleteMany(ids)] never throws and removes
    exactly the rows whose id is in the list: afterwards [get] returns
    null for each of the ids, every other row is still there in its
    place, other tables are untouched, and a list none of whose ids
    occurs (the empty list among them) leaves the table as it was.
    [delete(id)] does what [deleteMany([id])] does. *)
Theorem deleteMany_removes_exactly_ids (ids : list Scalar)
    (w : World (C := Mock.client sort lt)) :
  let w' := snd (BaseRepository.deleteMany (C := Mock.client sort lt) tableName ids w) in
  fst (BaseRepository.deleteMany (C := Mock.client sort lt) tableName ids w) = Return tt
  /\ (forall id, id ∈ ids ->
      fst (BaseRepository.get (C := Mock.client sort lt) tableName id w') = Return DNull)
  /\ Mock.tableData tableName (server w')
     = List.filter (fun row => bool_decide (prop row "id" ∉ ids))
         (Mock.tableData tableName (server w))
  /\ (forall other, other <> tableName ->
      Mock.tableData other (server w') = Mock.tableData other (server w))
  /\ ((forall row, In row (Mock.tableData tableName (server w)) -> prop row "id" ∉ ids) ->
      Mock.tableData tableName (server w') = Mock.tableData tableName (server w))
  /\ (forall id,
        Mock.tableData tableName
          (server (snd (BaseRepository.delete (C := Mock.client sort lt) tableName id w)))
        = Mock.tableData tableName
            (server (snd (BaseRepository.deleteMany (C := Mock.client sort lt)
                            tableName [id] w)))).
Proof.
  intros w'. destruct (deleteMany_on_mock ids w) as [Hret Hserver]. fold w' in Hserver.
  assert (Hrows : Mock.tableData tableName (server w')
                  = List.filter (fun row => bool_decide (prop row "id" ∉ ids))
                      (Mock.tableData tableName (server w))).
  { rewrite Hserver, tableData_setTableData. apply filter_ext_in. intros row _.
    destruct (Mock.includes ids (prop row "id")) eqn:E; simpl; symmetry.
    - apply bool_decide_eq_false. intros H. apply H, list_elem_of_In, includes_In, E.
    - apply bool_decide_eq_true. intros H. apply list_elem_of_In, includes_In in H.
      congruence. }
  split; [exact Hret|]. split; [|split; [exact Hrows|split; [|split]]].
  - intros id Hid. rewrite get_on_mock, Hrows, filter_filter_and.
    rewrite filter_none; [reflexivity|].
    intros row _. unfold has_id, strict_eq.
    destruct (bool_decide (prop row "id" ∉ ids)) eqn:E; [|reflexivity].
    apply bool_decide_eq_true in E. simpl. apply bool_decide_eq_false.
    intros Heq. apply E. rewrite Heq. exact Hid.
  - intros other Hne. rewrite Hserver. apply tableData_setTableData_ne. congruence.
  - intros Hnone. rewrite Hrows. apply filter_all. intros row Hrow.
    apply bool_decide_eq_true. apply Hnone, Hrow.
  - intros id. rewrite delete_run, deleteMany_run. cbn.
    unfold Mock.delete_eq, Mock.delete_in. cbn. rewrite !tableData_setTableData.
    apply filter_ext_in. intros row _. unfold Mock.includes. simpl.
    rewrite orb_false_r. reflexivity.
Qed.

End WritesOnMock.

Section UpdateOnMock.

Variable sort : (Row -> Row -> Z) -> list Row -> list Row.
Variable lt : Scalar -> Scalar -> bool.
Variable tableName : string.

Lemma prop_spread_kept (existing values : Row) (column : string) :
  values !! column = None ->
  prop (Mock.spread existing values) column = prop existing column.
Proof.
  intros H. unfold prop, Mock.spread.
  rewrite lookup_union_r by exact H. reflexivity.
Qed.

(** X10.  On the mock client, when exactly one row of the table has the
    id and the new values do not set [id], [update(id, values)] returns
    that row with the values laid over it, and a [get(id)] right after
    returns the same row; columns the values leave out keep what they
    held, the row stays at its place, and all other rows are as before. *)
Theorem update_then_get (id : Scalar) (values item : Row)
    (w : World (C := Mock.client sort lt)) :
  List.filter (has_id id) (Mock.tableData tableName (server w)) = [item] ->
  values !! "id" = None ->
  let w' := snd (BaseRepository.update (C := Mock.client sort lt) tableName id values w) in
  exists updated pre post,
    fst (BaseRepository.update (C := Mock.client sort lt) tableName id values w)
    = Return (DRow updated)
    /\ fst (BaseRepository.get (C := Mock.client sort lt) tableName id w')
       = Return (DRow updated)
    /\ (forall column value, values !! column = Some value ->
        updated !! column = Some value)
    /\ (forall column, values !! column = None -> updated !! column = item !! column)
    /\ Mock.tableData tableName (server w) = pre ++ item :: post
    /\ Mock.tableData tableName (server w') = pre ++ updated :: post.
Proof.
  intros Hone Hnoid w'.
  destruct (filter_single_split _ _ _ Hone) as (pre & post & Hrows & Hpre & Hpost & Hitem).
  exists (values ∪ item), pre, post.
  assert (Hrun :
    fst (BaseRepository.update (C := Mock.client sort lt) tableName id values w)
    = Return (DRow (values ∪ item))
    /\ server (snd (BaseRepository.update (C := Mock.client sort lt) tableName id values w))
       = Mock.setTableData tableName (pre ++ (values ∪ item) :: post) (server w)).
  { rewrite update_run. unfold settled, reply, after.
    cbn [Client.answer Mock.client Mock.answer fst snd server]. unfold Mock.update.
    fold (has_id id). rewrite Hrows, (findIndex_first _ _ _ _ Hpre Hitem).
    rewrite lookup_middle, insert_middle. split; reflexivity. }
  destruct Hrun as [Hfst Hserver]. fold w' in Hserver. rewrite Hfst.
  split; [reflexivity|]. split.
  - rewrite get_on_mock, Hserver, tableData_setTableData.
    rewrite List.filter_app. simpl. rewrite Hpre, Hpost.
    assert (Hu : has_id id (values ∪ item) = true).
    { unfold has_id in *. change (values ∪ item) with (Mock.spread item values).
      rewrite prop_spread_kept by exact Hnoid. exact Hitem. }
    rewrite Hu. reflexivity.
  - split; [|split; [|split]].
    + intros column value H. apply lookup_union_Some_l. exact H.
    + intros column H. apply lookup_union_r. exact H.
    + exact Hrows.
    + rewrite Hserver. apply tableData_setTableData.
Qed.

(** X11.  On the mock client [update] of an id that no row has throws
    "No rows updated" and changes nothing; so does [updateMany] when that
    is its first record. *)
Theorem update_of_missing_id (id : Scalar) (values : Row) (rest : list Row)
    (w : World (C := Mock.client sort lt)) :
  (forall row, In row (Mock.tableData tableName (server w)) -> prop row "id" <> id) ->
  values !! "id" = None ->
  fst (BaseRepository.update (C := Mock.client sort lt) tableName id values w)
  = Throw (Mock.Error "No rows updated")
  /\ server (snd (BaseRepository.update (C := Mock.client sort lt) tableName id values w))
     = server w
  /\ fst (BaseRepository.updateMany (C := Mock.client sort lt) tableName
            (<[ "id" := id ]> values :: rest) w)
     = Throw (Mock.Error "No rows updated")
  /\ server (snd (BaseRepository.updateMany (C := Mock.client sort lt) tableName
                    (<[ "id" := id ]> values :: rest) w))
     = server w.
Proof.
  intros Hmiss Hnoid.
  assert (Hnone : findIndex (has_id id) (Mock.tableData tableName (server w)) = None).
  { apply findIndex_none, filter_none. intros row Hrow. unfold has_id, strict_eq.
    apply bool_decide_eq_false. apply Hmiss, Hrow. }
  assert (Hrun :
    BaseRepository.update (C := Mock.client sort lt) tableName id values w
    = (Throw (Mock.Error "No rows updated"),
       after (C := Mock.client sort lt) (UpdateEqSelectSingle tableName values "id" id) w)
    /\ server (after (C := Mock.client sort lt)
                 (UpdateEqSelectSingle tableName values "id" id) w) = server w).
  { rewrite update_run. unfold settled, reply, after.
    cbn [Client.answer Mock.client Mock.answer fst snd server]. unfold Mock.update.
    fold (has_id id). rewrite Hnone. split; reflexivity. }
  destruct Hrun as [Hrun Hsame].
  rewrite Hrun. cbn [fst snd]. split; [reflexivity|]. split; [exact Hsame|].
  unfold BaseRepository.updateMany. cbn [BaseRepository.updateMany_loop]. unfold bind.
  assert (Hid : prop (<[ "id" := id ]> values) "id" = id).
  { unfold prop. rewrite lookup_insert_eq. reflexivity. }
  assert (Hpayload : base.delete "id" (<[ "id" := id ]> values) = values).
  { rewrite delete_insert_eq. apply delete_id. exact Hnoid. }
  rewrite Hid, Hpayload, Hrun. split; [reflexivity | exact Hsame].
Qed.

End UpdateOnMock.

Section CreateOnMock.

Variable sort : (Row -> Row -> Z) -> list Row -> list Row.
Variable lt : Scalar -> Scalar -> bool.
Variable tableName : string.

(** X12.  On the mock client [createMany(records)] never throws and
    returns one row per record, in order; each row holds every field of
    its record unchanged, has an [id] (the record's own if it has one)
    and nothing else; the rows are appended to the table, so that a
    [find()] right after returns the old rows followed by the new ones.
    [create(record)] stores what [createMany([record])] stores. *)
Theorem createMany_appends (records : list Row) (w : World (C := Mock.client sort lt)) :
  let w' := snd (BaseRepository.createMany (C := Mock.client sort lt) tableName records w) in
  exists inserted,
    fst (BaseRepository.createMany (C := Mock.client sort lt) tableName records w)
    = Return (DRows inserted)
    /\ length inserted = length records
    /\ (forall i record, records !! i = Some record ->
        exists row,
          inserted !! i = Some row
          /\ record ⊆ row
          /\ is_Some (row !! "id")
          /\ (forall column, column <> "id" -> row !! column = record !! column))
    /\ Mock.tableData tableName (server w')
       = Mock.tableData tableName (server w) ++ inserted
    /\ fst (BaseRepository.find (C := Mock.client sort lt) tableName
              {| BaseRepository.opt_filter := None; BaseRepository.opt_orderBy := None |} w')
       = Return (DRows (Mock.tableData tableName (server w) ++ inserted))
    /\ (forall record,
          server (snd (BaseRepository.create (C := Mock.client sort lt) tableName record w))
          = server (snd (BaseRepository.createMany (C := Mock.client sort lt) tableName
                           [record] w))).
Proof.
  intros w'.
  set (inserted :=
         imap (fun index item =>
                 Mock.spread {[ "id" := SStr (Mock.mock_id_indexed (server w) index) ]} item)
              records).
  assert (Hrun :
    fst (BaseRepository.createMany (C := Mock.client sort lt) tableName records w)
    = Return (DRows inserted)
    /\ server w'
       = Mock.setTableData tableName (Mock.tableData tableName (server w) ++ inserted)
           (server w)).
  { unfold w'. rewrite createMany_run. split; reflexivity. }
  destruct Hrun as [Hfst Hserver].
  exists inserted. split; [exact Hfst|]. split; [apply length_imap|].
  split; [|split; [|split]].
  - intros i record Hi. unfold inserted. rewrite list_lookup_imap, Hi. simpl.
    eexists. split; [reflexivity|]. unfold Mock.spread. split; [|split].
    + apply map_union_subseteq_l.
    + destruct (record !! "id") as [v|] eqn:E.
      * exists v. apply lookup_union_Some_l. exact E.
      * eexists. rewrite lookup_union_r by exact E. apply lookup_singleton_eq.
    + intros column Hne. destruct (record !! column) as [v|] eqn:E.
      * apply lookup_union_Some_l. exact E.
      * rewrite lookup_union_r by exact E. apply lookup_singleton_ne. congruence.
  - rewrite Hserver. apply tableData_setTableData.
  - destruct (find_on_mock sort lt tableName
                {| BaseRepository.opt_filter := None; BaseRepository.opt_orderBy := None |}
                [] w' eq_refl) as [Hfind _].
    rewrite Hfind. cbn [fst]. unfold selected. cbn [order_pairs BaseRepository.opt_orderBy].
    rewrite filter_all by reflexivity.
    rewrite Hserver, tableData_setTableData. reflexivity.
  - intros record. rewrite create_run, createMany_run. reflexivity.
Qed.

End CreateOnMock.

(** ** Conflict columns on their way to the mock *)

Lemma append_empty_r (s : string) : s +:+ "" = s.
Proof.
  induction s as [|c s IH]; [reflexivity|].
  change (String c (s +:+ "") = String c s). rewrite IH. reflexivity.
Qed.

Lemma split_from_plain (sep : Ascii.ascii) (c : string) : forall current rest,
  has_char sep c = false ->
  split_from sep current (c +:+ rest) = split_from sep (current +:+ c) rest.
Proof.
  induction c as [|a c IH]; intros current rest Hplain.
  - rewrite append_empty_r. reflexivity.
  - simpl in Hplain. apply orb_false_iff in Hplain. destruct Hplain as [Ha Hc].
    change (String a c +:+ rest) with (String a (c +:+ rest)).
    cbn [split_from]. rewrite Ha, (IH _ _ Hc), append_assoc. reflexivity.
Qed.

Lemma split_concat (cols : list string) :
  cols <> [] ->
  (forall c, In c cols -> has_char "," c = false) ->
  split (String.concat "," cols) "," = cols.
Proof.
  unfold split. induction cols as [|c cols IH]; intros Hne Hplain; [congruence|].
  destruct cols as [|c2 cols].
  - simpl. rewrite <- (append_empty_r c) at 1.
    rewrite split_from_plain by (apply Hplain; left; reflexivity). reflexivity.
  - change (String.concat "," (c :: c2 :: cols))
      with (c +:+ String "," (String.concat "," (c2 :: cols))).
    rewrite split_from_plain by (apply Hplain; left; reflexivity).
    cbn [split_from]. rewrite Ascii.eqb_refl. f_equal.
    apply IH; [discriminate|]. intros x Hx. apply Hplain. right. exact Hx.
Qed.

Lemma concat_split_from (s : string) : forall current,
  String.concat "," (split_from "," current s) = current +:+ s.
Proof.
  induction s as [|a s IH]; intros current.
  - simpl. rewrite append_empty_r. reflexivity.
  - cbn [split_from]. destruct (Ascii.eqb a ",") eqn:Ha.
    + apply Ascii.eqb_eq in Ha. subst a.
      specialize (IH ""). destruct (split_from "," "" s) as [|x xs] eqn:E.
      * destruct s; simpl in E; [discriminate|].
        destruct (Ascii.eqb a ","); discriminate.
      * change (String.concat "," (current :: x :: xs))
          with (current +:+ String "," (String.concat "," (x :: xs))).
        rewrite IH. reflexivity.
    + rewrite IH, append_assoc. reflexivity.
Qed.

(** X13.  The conflict columns reach the mock as they were given: joined
    with commas by [upsert] and split at commas by the mock they come out
    the same list, provided the list is not empty and no column name
    holds a comma; an empty list reaches the mock as the single column
    [""].  The other way round nothing is lost: splitting any string and
    joining the parts gives the string back. *)
Theorem conflict_columns_round_trip :
  (forall cols,
     cols <> [] ->
     (forall c, In c cols -> has_char "," c = false) ->
     split (join cols ",") "," = cols)
  /\ split (join [] ",") "," = [""]
  /\ (forall s, join (split s ",") "," = s).
Proof.
  split; [|split].
  - intros cols Hne Hplain. rewrite join_concat. apply split_concat; assumption.
  - reflexivity.
  - intros s. rewrite join_concat. unfold split. apply concat_split_from.
Qed.

(** ** [upsert] on the mock *)

Lemma union_of_subseteq (values row : Row) : values ⊆ row -> values ∪ row = row.
Proof. intros H. apply map_subseteq_union. exact H. Qed.

Lemma prop_of_subseteq (values row : Row) column :
  values ⊆ row -> prop values column <> SUndefined ->
  prop row column = prop values column.
Proof.
  intros Hsub Hdef. unfold prop in *.
  destruct (values !! column) as [v|] eqn:E; [|simpl in Hdef; congruence].
  rewrite (lookup_weaken _ _ _ _ E Hsub). reflexivity.
Qed.

(** A row that carries the item's values is a match for the item as soon
    as the item has a value on one conflict column. *)
Lemma conflicts_self (cols : list string) (values row : Row) :
  (exists c, In c cols /\ prop values c <> SUndefined) ->
  values ⊆ row ->
  conflicts cols values row = true.
Proof.
  intros (c & Hc & Hdef) Hsub. unfold conflicts. apply existsb_exists.
  exists c. split; [exact Hc|].
  rewrite (prop_of_subseteq _ _ _ Hsub Hdef). unfold strict_eq.
  apply andb_true_iff. split.
  - apply negb_true_iff, bool_decide_eq_false. exact Hdef.
  - apply bool_decide_eq_true. reflexivity.
Qed.


Section UpsertOnMock.

Variable sort : (Row -> Row -> Z) -> list Row -> list Row.
Variable lt : Scalar -> Scalar -> bool.
Variable tableName : string.

Lemma stored_subseteq values s : values ⊆ stored values s.
Proof.
  unfold stored. destruct (truthy (prop values "id")); [reflexivity|].
  apply map_union_subseteq_l.
Qed.

Lemma upsert_on_mock (values : Row) (cols : list string)
    (w : World (C := Mock.client sort lt)) :
  cols <> [] ->
  (forall c, In c cols -> has_char "," c = false) ->
  (fst (BaseRepository.upsert (C := Mock.client sort lt) tableName values cols w),
   server (snd (BaseRepository.upsert (C := Mock.client sort lt) tableName values cols w)))
  = match findIndex (conflicts cols values) (Mock.tableData tableName (server w)) with
    | Some i =>
        let updated := values ∪ default ∅ (Mock.tableData tableName (server w) !! i) in
        (Return (DRow updated),
         Mock.setTableData tableName
           (<[i := updated]> (Mock.tableData tableName (server w))) (server w))
    | None =>
        (Return (DRow (stored values (server w))),
         Mock.setTableData tableName
           (Mock.tableData tableName (server w) ++ [stored values (server w)]) (server w))
    end.
Proof.
  intros Hne Hplain. rewrite upsert_run. unfold settled, reply, after.
  cbn [Client.answer Mock.client Mock.answer fst snd server]. unfold Mock.upsert.
  rewrite join_concat, (split_concat cols Hne Hplain).
  fold (conflicts cols values).
  destruct (findIndex (conflicts cols values) (Mock.tableData tableName (server w)));
    reflexivity.
Qed.


(** X15.  On the mock client [upsert] can be repeated: for a list of
    conflict columns that is not empty and has no comma in any name, and
    data that has a value on at least one of them, a second [upsert] of
    the same data returns the same row as the first and leaves the table
    as the first left it. *)
Theorem upsert_twice (values : Row) (cols : list string)
    (w : World (C := Mock.client sort lt)) :
  cols <> [] ->
  (forall c, In c cols -> has_char "," c = false) ->
  (exists c, In c cols /\ prop values c <> SUndefined) ->
  let w1 := snd (BaseRepository.upsert (C := Mock.client sort lt) tableName values cols w) in
  fst (BaseRepository.upsert (C := Mock.client sort lt) tableName values cols w1)
  = fst (BaseRepository.upsert (C := Mock.client sort lt) tableName values cols w)
  /\ Mock.tableData tableName
       (server (snd (BaseRepository.upsert (C := Mock.client sort lt) tableName
                       values cols w1)))
     = Mock.tableData tableName (server w1).
Proof.
  intros Hne Hplain Hvalue w1.
  pose proof (upsert_on_mock values cols w Hne Hplain) as Hrun. fold w1 in Hrun.
  pose proof (upsert_on_mock values cols w1 Hne Hplain) as Hrun1.
  destruct (findIndex (conflicts cols values) (Mock.tableData tableName (server w)))
    as [i|] eqn:Hfind.
  - destruct (findIndex_Some _ _ _ Hfind) as (pre & x & post & Hrows & <- & Hpre & Hx).
    cbv zeta in Hrun. rewrite Hrows, lookup_middle in Hrun.
    change (default ∅ (Some x)) with x in Hrun.
    rewrite insert_middle in Hrun.
    injection Hrun as Hfst Hserver.
    assert (Hrows1 : Mock.tableData tableName (server w1) = pre ++ (values ∪ x) :: post)
      by (rewrite Hserver; apply tableData_setTableData).
    rewrite Hrows1 in Hrun1.
    rewrite (findIndex_first _ pre post (values ∪ x) Hpre) in Hrun1
      by (apply conflicts_self; [exact Hvalue | apply map_union_subseteq_l]).
    cbv zeta in Hrun1. rewrite lookup_middle in Hrun1.
    change (default ∅ (Some (values ∪ x))) with (values ∪ x) in Hrun1.
    rewrite insert_middle in Hrun1.
    rewrite (union_of_subseteq values (values ∪ x)) in Hrun1
      by apply map_union_subseteq_l.
    injection Hrun1 as Hfst1 Hserver1.
    rewrite Hfst1, Hfst, Hserver1, tableData_setTableData, Hrows1. split; reflexivity.
  - injection Hrun as Hfst Hserver.
    set (row := stored values (server w)) in *.
    assert (Hrows1 : Mock.tableData tableName (server w1)
                     = Mock.tableData tableName (server w) ++ [row])
      by (rewrite Hserver; apply tableData_setTableData).
    rewrite Hrows1 in Hrun1.
    rewrite (findIndex_first _ _ [] row (proj1 (findIndex_none _ _) Hfind)) in Hrun1
      by (apply conflicts_self; [exact Hvalue | apply stored_subseteq]).
    cbv zeta in Hrun1. rewrite lookup_middle in Hrun1.
    change (default ∅ (Some row)) with row in Hrun1.
    rewrite insert_middle in Hrun1.
    rewrite (union_of_subseteq values row) in Hrun1 by apply stored_subseteq.
    injection Hrun1 as Hfst1 Hserver1.
    rewrite Hfst1, Hfst, Hserver1, tableData_setTableData, Hrows1. split; reflexivity.
Qed.


End UpsertOnMock.

(** ** The example repository on the mock *)

Section UserRepositoryOnMock.

Variable sort : (Row -> Row -> Z) -> list Row -> list Row.
Variable lt : Scalar -> Scalar -> bool.

(** X17.  On the mock client [findByEmail] never throws: it returns the
    first row of the table, in table order, whose email is the one asked
    for, and null when there is none; several rows with that email are
    no error.  Against any client, an error of the query is thrown as it
    is. *)
Theorem findByEmail_first_match (TypeError : ClientError) (email : string) :
  (forall (w : World (C := Mock.client sort lt)),
     fst (UserRepository.findByEmail (C := Mock.client sort lt) TypeError email w)
     = Return
         match List.filter (fun row => strict_eq (prop row "email") (SStr email))
                 (Mock.tableData "users" (server w)) with
         | [] => UserRepository.FoundNull
         | user :: _ => UserRepository.FoundRow user
         end)
  /\ (forall (C : SupabaseClient) (w : World) (e : ClientError),
        error (reply (find_request "users"
                        {| BaseRepository.opt_filter := Some (Client.eq "email" (SStr email));
                           BaseRepository.opt_orderBy := None |}) w) = Some e ->
        fst (UserRepository.findByEmail TypeError email w) = Throw e).
Proof.
  split.
  - intros w. unfold UserRepository.findByEmail, bind.
    destruct (find_on_mock sort lt "users"
                {| BaseRepository.opt_filter :=
                     Some (Client.eq (SupabaseClient := Mock.client sort lt)
                             "email" (SStr email));
                   BaseRepository.opt_orderBy := None |}
                [fun row => strict_eq (prop row "email") (SStr email)] w) as [Hfind _];
      [intros b; reflexivity|].
    rewrite Hfind. unfold selected. cbn [order_pairs BaseRepository.opt_orderBy].
    erewrite filter_ext_in
      with (q := fun row => strict_eq (prop row "email") (SStr email));
      [|intros row _; simpl; apply andb_true_r].
    destruct (List.filter _ (Mock.tableData "users" (server w))); reflexivity.
  - intros C w e Herr. unfold UserRepository.findByEmail, bind.
    rewrite find_run. unfold settled. rewrite Herr. reflexivity.
Qed.

(** X18.  On the mock client, with a sort that only rearranges,
    [findActiveUsers] returns exactly the rows of the table whose
    [deleted_at] is not null; a row that has no [deleted_at] at all is
    among them. *)
Theorem findActiveUsers_rows (w : World (C := Mock.client sort lt)) :
  (forall cmp rows, Permutation (sort cmp rows) rows) ->
  exists rows,
    fst (UserRepository.findActiveUsers (C := Mock.client sort lt) MockBuilder.not w)
    = Return (DRows rows)
    /\ (forall row,
          In row rows
          <-> In row (Mock.tableData "users" (server w))
              /\ row !! "deleted_at" <> Some SNull).
Proof.
  intros Hsort. unfold UserRepository.findActiveUsers.
  eexists. split.
  { refine (f_equal fst
              (proj1 (find_on_mock sort lt "users" _
                        [fun row => negb (strict_eq (prop row "deleted_at") SNull)] w _))).
    intros b. reflexivity. }
  intros row. unfold selected. cbn.
  assert (Hiff : forall l : list Row,
             In row (sort (Mock.compareRows lt [("created_at", false)]) l) <-> In row l).
  { intros l. split; apply Permutation_in; [|symmetry]; apply Hsort. }
  rewrite Hiff, filter_In. unfold satisfies. simpl.
  rewrite andb_true_r, negb_true_iff. unfold strict_eq, prop.
  rewrite bool_decide_eq_false.
  destruct (row !! "deleted_at") as [v|]; simpl; split; intros [Hin Hne]; split;
    try exact Hin; congruence.
Qed.

End UserRepositoryOnMock.

(** ** The runtime's sort only rearranges *)

Lemma insert_sorted_Permutation cmp x l :
  Permutation (Runtime.insert_sorted cmp x l) (x :: l).
Proof.
  induction l as [|y l IH]; simpl; [reflexivity|].
  destruct (0 <? cmp x y); [|reflexivity].
  rewrite IH. apply perm_swap.
Qed.

Lemma sort_Permutation cmp l : Permutation (Runtime.sort cmp l) l.
Proof.
  unfold Runtime.sort. induction l as [|x l IH]; simpl; [reflexivity|].
  rewrite insert_sorted_Permutation. apply perm_skip, IH.
Qed.

Lemma sort_length cmp l : length (Runtime.sort cmp l) = length l.
Proof. apply Permutation_length, sort_Permutation. Qed.

(** ** Examples on the three users *)

(** A page of the three users takes two queries; of three updates the
    second of which names no row, two are sent. *)
Lemma one_request_per_call_witness :
  length (requests (trace (snd (perform (C := Runtime.mock) "users"
                                  (FindPaginated first_page_of_two) Fixture.users))))
  = 2%nat
  /\ length (requests (trace (snd (BaseRepository.updateMany (C := Runtime.mock) "users"
                                     updates_with_stranger Fixture.users))))
     = 2%nat.
Proof.
  split.
  - destruct (proj1 (one_request_per_call (C := Runtime.mock) "users")
                (FindPaginated first_page_of_two) Fixture.users
                (trace (snd (perform (C := Runtime.mock) "users"
                               (FindPaginated first_page_of_two) Fixture.users)))
                ltac:(vm_compute; reflexivity)) as [_ H].
    rewrite H. vm_compute. reflexivity.
  - destruct (proj2 (one_request_per_call (C := Runtime.mock) "users")
                updates_with_stranger Fixture.users
                (trace (snd (BaseRepository.updateMany (C := Runtime.mock) "users"
                               updates_with_stranger Fixture.users)))
                ltac:(vm_compute; reflexivity)) as (_ & _ & _ & _ & _ & H).
    eapply (H 1%nat).
    + vm_compute. reflexivity.
    + discriminate.
Defined.

Lemma findPaginated_total_is_count_witness :
  fst (BaseRepository.count (C := Runtime.mock) "users" None Fixture.users) = Return 3.
Proof.
  apply (findPaginated_total_is_count (C := Runtime.mock) "users" first_page_of_two
           Fixture.users first_page_result).
  vm_compute. reflexivity.
Defined.


Lemma count_is_length_of_find_witness :
  exists rows,
    fst (BaseRepository.find (C := Runtime.mock) "users"
           {| BaseRepository.opt_filter :=
                Some (Mock.eq "email" (SStr "john@example.com")
                      : BaseRepository.FilterFunction (C := Runtime.mock));
              BaseRepository.opt_orderBy := None |} Fixture.users)
    = Return (DRows rows)
    /\ fst (BaseRepository.count (C := Runtime.mock) "users"
              (Some (Mock.eq "email" (SStr "john@example.com"))) Fixture.users)
       = Return (Z.of_nat (length rows)).
Proof.
  destruct (count_is_length_of_find Runtime.sort Runtime.lt "users"
              (Mock.eq "email" (SStr "john@example.com")) [johns_email] Fixture.users)
    as (rows & Hfind & Hcount & _).
  - intros b. reflexivity.
  - exists rows. split; [exact Hfind | exact Hcount].
Defined.

Lemma page_is_window_on_find_witness :
  exists all result,
    fst (BaseRepository.find (C := Runtime.mock) "users"
           {| BaseRepository.opt_filter := None;
              BaseRepository.opt_orderBy :=
                Some (OneOrder {| column := "name"; ascending := Some true |}) |}
           Fixture.users)
    = Return (DRows all)
    /\ fst (BaseRepository.findPaginated (C := Runtime.mock) "users" first_page_of_two
              Fixture.users) = Return result
    /\ items result = DRows (take 2 (drop 0 all)).
Proof.
  destruct (page_is_window_on_find Runtime.sort Runtime.lt "users" first_page_of_two []
              Fixture.users) as (all & result & Hfind & Hpage & Hitems & _).
  - reflexivity.
  - vm_compute. discriminate.
  - vm_compute. discriminate.
  - exists all, result. split; [exact Hfind|]. split; [exact Hpage | exact Hitems].
Defined.

Lemma get_by_number_of_matches_witness :
  fst (BaseRepository.get (C := Runtime.mock) "users" (SStr "999") Fixture.users)
  = Return DNull.
Proof.
  apply (proj1 (get_by_number_of_matches Runtime.sort Runtime.lt "users" (SStr "999")
                  Fixture.users)).
  vm_compute. reflexivity.
Defined.

Lemma deleteMany_removes_exactly_ids_witness :
  fst (BaseRepository.get (C := Runtime.mock) "users" (SStr "1")
         (snd (BaseRepository.deleteMany (C := Runtime.mock) "users"
                 [SStr "1"; SStr "2"] Fixture.users)))
  = Return DNull.
Proof.
  apply (proj1 (proj2 (deleteMany_removes_exactly_ids Runtime.sort Runtime.lt "users"
                         [SStr "1"; SStr "2"] Fixture.users))).
  apply list_elem_of_here.
Defined.

Lemma update_then_get_witness :
  exists updated,
    fst (BaseRepository.update (C := Runtime.mock) "users" (SStr "1")
           {[ "name" := SStr "John Updated" ]} Fixture.users)
    = Return (DRow updated)
    /\ fst (BaseRepository.get (C := Runtime.mock) "users" (SStr "1")
              (snd (BaseRepository.update (C := Runtime.mock) "users" (SStr "1")
                      {[ "name" := SStr "John Updated" ]} Fixture.users)))
       = Return (DRow updated)
    /\ updated !! "name" = Some (SStr "John Updated")
    /\ updated !! "email" = Some (SStr "john@example.com").
Proof.
  destruct (update_then_get Runtime.sort Runtime.lt "users" (SStr "1")
              {[ "name" := SStr "John Updated" ]} Fixture.john Fixture.users)
    as (updated & pre & post & Hupdate & Hget & Hnew & Hkept & _).
  - vm_compute. reflexivity.
  - reflexivity.
  - exists updated. split; [exact Hupdate|]. split; [exact Hget|]. split.
    + apply Hnew. reflexivity.
    + rewrite Hkept by reflexivity. reflexivity.
Defined.

(** No row has the id, checked by running over the table. *)
Lemma no_row_has_id (id : Scalar) (rows : list Row) :
  forallb (fun row => negb (has_id id row)) rows = true ->
  forall row, In row rows -> prop row "id" <> id.
Proof.
  intros Hall row Hrow Heq. rewrite forallb_forall in Hall.
  specialize (Hall row Hrow). unfold has_id, strict_eq in Hall.
  rewrite negb_true_iff, bool_decide_eq_false in Hall. contradiction.
Qed.

Lemma update_of_missing_id_witness :
  fst (BaseRepository.update (C := Runtime.mock) "users" (SStr "9")
         {[ "name" := SStr "Nobody" ]} Fixture.users)
  = Throw (Mock.Error "No rows updated").
Proof.
  apply (update_of_missing_id Runtime.sort Runtime.lt "users" (SStr "9")
           {[ "name" := SStr "Nobody" ]} [] Fixture.users).
  - apply no_row_has_id. vm_compute. reflexivity.
  - reflexivity.
Defined.

Lemma conflict_columns_round_trip_witness :
  split (join ["id"; "email"] ",") "," = ["id"; "email"].
Proof.
  apply (proj1 conflict_columns_round_trip).
  - discriminate.
  - intros c [<-|[<-|[]]]; reflexivity.
Defined.


Lemma upsert_twice_witness :
  fst (BaseRepository.upsert (C := Runtime.mock) "users" john_renamed ["email"]
         (snd (BaseRepository.upsert (C := Runtime.mock) "users" john_renamed ["email"]
                 Fixture.users)))
  = fst (BaseRepository.upsert (C := Runtime.mock) "users" john_renamed ["email"]
           Fixture.users).
Proof.
  apply (upsert_twice Runtime.sort Runtime.lt "users" john_renamed ["email"] Fixture.users).
  - discriminate.
  - intros c [<-|[]]. reflexivity.
  - exists "email". split; [left; reflexivity | vm_compute; discriminate].
Defined.


Lemma findActiveUsers_rows_witness :
  exists rows,
    fst (UserRepository.findActiveUsers (C := Runtime.mock) MockBuilder.not Fixture.users)
    = Return (DRows rows)
    /\ (forall row,
          In row rows
          <-> In row (Mock.tableData "users" (server Fixture.users))
              /\ row !! "deleted_at" <> Some SNull).
Proof.
  apply (findActiveUsers_rows Runtime.sort Runtime.lt Fixture.users).
  intros cmp rows. apply sort_Permutation.
Defined.

Lemma pages_up_to_totalPages_have_rows_witness :
  exists result rows totalPages,
    fst (BaseRepository.findPaginated (C := Runtime.mock) "users" first_page_of_two
           Fixture.users) = Return result
    /\ items result = DRows rows
    /\ Pagination.totalPages (pagination result) = Num (inject_Z totalPages)
    /\ (rows <> [] <-> 1 <= totalPages).
Proof.
  destruct (pages_up_to_totalPages_have_rows Runtime.sort Runtime.lt "users"
              first_page_of_two [] Fixture.users)
    as (result & rows & totalPages & Hrun & Hitems & Hpages & _ & Hiff).
  - intros cmp rows. apply sort_length.
  - reflexivity.
  - vm_compute. discriminate.
  - reflexivity.
  - exists result, rows, totalPages.
    split; [exact Hrun|]. split; [exact Hitems|]. split; [exact Hpages | exact Hiff].
Defined.

Lemma createMany_appends_witness :
  exists inserted row,
    fst (BaseRepository.createMany (C := Runtime.mock) "users" [nameless_email]
           Fixture.users) = Return (DRows inserted)
    /\ inserted !! 0%nat = Some row
    /\ nameless_email ⊆ row
    /\ is_Some (row !! "id").
Proof.
  destruct (createMany_appends Runtime.sort Runtime.lt "users" [nameless_email]
              Fixture.users) as (inserted & Hrun & _ & Hrows & _).
  destruct (Hrows 0%nat nameless_email eq_refl) as (row & Hrow & Hsub & Hid & _).
  exists inserted, row. split; [exact Hrun|]. split; [exact Hrow|].
  split; [exact Hsub | exact Hid].
Defined.

Lemma findByEmail_first_match_witness :
  fst (UserRepository.findByEmail (C := Scripted.client)
         (Mock.Error "users is null") "john@example.com"
         (Scripted.start [ {| data := DNull; error := Some (PGRST116 "no rows");
                              count := None |} ]))
  = Throw (PGRST116 "no rows").
Proof.
  apply (proj2 (findByEmail_first_match Runtime.sort Runtime.lt
                  (Mock.Error "users is null") "john@example.com") Scripted.client).
  reflexivity.
Defined.
